(** * Todo API: a shallow embedding of the handlers, the identity middleware
      and the route table, with the properties of its specification.

    The Go program is a gin server over one MongoDB collection.  The
    embedding keeps the program's own shape:

    - [primitive], [models]: the data types of the [models] package and
      the driver's [ObjectID];
    - [encoding]: the JSON values of request bodies and what
      [ShouldBindJSON] makes of them for the two request structs;
    - [runtime]: the world a request runs in (environment variables, the
      wall clock, the two identifier generators, the database link and
      the stored collections) and the state monad that threads it;
    - [mongo]: the collection operations the handlers call;
    - [gin]: the request context;
    - [middleware], [handlers], [router]: the code under verification.

    Requests are served one at a time: the embedding has no interleaving
    of two requests inside one handler. *)

From stdpp Require Import base option list gmap strings fin_maps.
From Stdlib Require Import ZArith NArith Ascii String Lia.

Local Open Scope string_scope.

(** ** The driver's identifiers *)

Module primitive.

(** [primitive.ObjectID] is a [12]byte array; it is kept as the number
    its twelve bytes spell in base 256, most significant byte first. *)
Definition ObjectID := N.

Definition NilObjectID : ObjectID := 0%N.

(** One hexadecimal digit, in either case, as [encoding/hex] reads it. *)
Definition fromHexChar (a : ascii) : option N :=
  let n := N_of_ascii a in
  if ((48 <=? n) && (n <=? 57))%N then Some (n - 48)%N
  else if ((97 <=? n) && (n <=? 102))%N then Some (n - 87)%N
  else if ((65 <=? n) && (n <=? 70))%N then Some (n - 55)%N
  else None.

Fixpoint hexDecode (s : string) (acc : N) : option N :=
  match s with
  | EmptyString => Some acc
  | String a rest =>
      match fromHexChar a with
      | Some d => hexDecode rest (16 * acc + d)%N
      | None => None
      end
  end.

(** [ObjectIDFromHex]: exactly 24 hexadecimal digits, an error ([None])
    otherwise. *)
Definition ObjectIDFromHex (s : string) : option ObjectID :=
  if Nat.eqb (String.length s) 24 then hexDecode s 0%N else None.

End primitive.

(** ** package models *)

Module models.
Import primitive.

(** [time.Time], as an instant on the integer time line. *)
Definition Time := Z.

Record Todo := mkTodo {
  ID : ObjectID;
  UserID : string;
  Title : string;
  Description : string;
  Completed : bool;
  CreatedAt : Time;
  UpdatedAt : Time;
}.

(** [Title] carries [binding:"required"]. *)
Record CreateTodoRequest := mkCreateTodoRequest {
  create_Title : string;
  create_Description : string;
}.

(** The three pointer fields: [None] is the nil pointer. *)
Record UpdateTodoRequest := mkUpdateTodoRequest {
  update_Title : option string;
  update_Description : option string;
  update_Completed : option bool;
}.

#[export] Instance Todo_eq_dec : EqDecision Todo.
Proof. solve_decision. Defined.

End models.

(** ** Request bodies and their binding *)

Module encoding.
Import models.

(** A JSON value, as [encoding/json] has read it from the body. *)
#[warnings="-register-all"] Inductive json :=
| JNull
| JBool (b : bool)
| JNumber (n : Z)
| JString (s : string)
| JArray (items : list json)
| JObject (members : list (string * json)).

(** [encoding/json] matches an object key against a struct tag up to
    case.  On the tags of this program that is: ASCII letters up to
    case, plus the two runes whose case orbit holds an ASCII letter,
    U+017F (bytes C5 BF, folds with S) and U+212A (bytes E2 84 AA,
    folds with K).  [foldName] maps a key to its folded form. *)
Definition upperASCII (a : ascii) : ascii :=
  let n := N_of_ascii a in
  if ((97 <=? n) && (n <=? 122))%N then ascii_of_N (n - 32) else a.

Fixpoint foldName (s : string) : string :=
  match s with
  | EmptyString => EmptyString
  | String a rest =>
      match rest with
      | String b rest1 =>
          if ((N_of_ascii a =? 197) && (N_of_ascii b =? 191))%N
          then String "S" (foldName rest1)
          else
            match rest1 with
            | String c rest2 =>
                if ((N_of_ascii a =? 226) && (N_of_ascii b =? 132)
                    && (N_of_ascii c =? 170))%N
                then String "K" (foldName rest2)
                else String (upperASCII a) (foldName rest)
            | EmptyString => String (upperASCII a) (foldName rest)
            end
      | EmptyString => String (upperASCII a) EmptyString
      end
  end.

Definition equalFold (key tag : string) : bool :=
  String.eqb (foldName key) (foldName tag).

(** What [ShouldBindJSON] can report; the handlers answer every one of
    them with 400 and the error's text. *)
Inductive bindError :=
| ErrSyntax       (* no JSON value could be read from the body *)
| ErrUnmarshalType (* a value of the wrong JSON type for its field *)
| ErrRequired.    (* the validator's [required] check failed *)

(** Decoding one object member into a [CreateTodoRequest].  The flag
    records a type error: the decoder goes on and reports it at the
    end.  [null] leaves a non-pointer field as it is. *)
Definition storeCreate (acc : CreateTodoRequest * bool) (kv : string * json)
  : CreateTodoRequest * bool :=
  let '(req, bad) := acc in
  let '(k, v) := kv in
  if equalFold k "title" then
    match v with
    | JString s => (mkCreateTodoRequest s (create_Description req), bad)
    | JNull => (req, bad)
    | _ => (req, true)
    end
  else if equalFold k "description" then
    match v with
    | JString s => (mkCreateTodoRequest (create_Title req) s, bad)
    | JNull => (req, bad)
    | _ => (req, true)
    end
  else (req, bad).

Definition zeroCreate : CreateTodoRequest := mkCreateTodoRequest "" "".

(** The [required] tag: the field must differ from its zero value. *)
Definition validateCreate (req : CreateTodoRequest)
  : bindError + CreateTodoRequest :=
  if String.eqb (create_Title req) "" then inl ErrRequired else inr req.

(** [c.ShouldBindJSON(&req)] for [req : CreateTodoRequest]; the body is
    [None] when the decoder finds no JSON value in it. *)
Definition bindCreate (body : option json) : bindError + CreateTodoRequest :=
  match body with
  | None => inl ErrSyntax
  | Some JNull => validateCreate zeroCreate
  | Some (JObject members) =>
      let '(req, bad) := foldl storeCreate (zeroCreate, false) members in
      if bad then inl ErrUnmarshalType else validateCreate req
  | Some _ => inl ErrUnmarshalType
  end.

(** Decoding one object member into an [UpdateTodoRequest]: a value
    allocates the pointer, [null] sets it to nil. *)
Definition storeUpdate (acc : UpdateTodoRequest * bool) (kv : string * json)
  : UpdateTodoRequest * bool :=
  let '(req, bad) := acc in
  let '(k, v) := kv in
  if equalFold k "title" then
    match v with
    | JString s =>
        (mkUpdateTodoRequest (Some s) (update_Description req)
           (update_Completed req), bad)
    | JNull =>
        (mkUpdateTodoRequest None (update_Description req)
           (update_Completed req), bad)
    | _ => (req, true)
    end
  else if equalFold k "description" then
    match v with
    | JString s =>
        (mkUpdateTodoRequest (update_Title req) (Some s)
           (update_Completed req), bad)
    | JNull =>
        (mkUpdateTodoRequest (update_Title req) None
           (update_Completed req), bad)
    | _ => (req, true)
    end
  else if equalFold k "completed" then
    match v with
    | JBool b =>
        (mkUpdateTodoRequest (update_Title req) (update_Description req)
           (Some b), bad)
    | JNull =>
        (mkUpdateTodoRequest (update_Title req) (update_Description req)
           None, bad)
    | _ => (req, true)
    end
  else (req, bad).

Definition zeroUpdate : UpdateTodoRequest := mkUpdateTodoRequest None None None.

(** [c.ShouldBindJSON(&req)] for [req : UpdateTodoRequest]: the struct
    has no binding tag, so the validator accepts whatever decodes. *)
Definition bindUpdate (body : option json) : bindError + UpdateTodoRequest :=
  match body with
  | None => inl ErrSyntax
  | Some JNull => inr zeroUpdate
  | Some (JObject members) =>
      let '(req, bad) := foldl storeUpdate (zeroUpdate, false) members in
      if bad then inl ErrUnmarshalType else inr req
  | Some _ => inl ErrUnmarshalType
  end.

End encoding.

(** ** The world of a request *)

Module runtime.
Import primitive models.

(** A source of outside values read one after another (clock readings,
    generated identifiers, the fate of a database round trip): the
    values to come, and how many have been taken. *)
Record Source (A : Type) := mkSource {
  feed : nat -> A;
  used : nat;
}.
Arguments mkSource {A} _ _.
Arguments feed {A} _ _.
Arguments used {A} _.

Definition peek {A} (s : Source A) : A := feed s (used s).
Definition advance {A} (s : Source A) : Source A :=
  mkSource (feed s) (S (used s)).

Record World := mkWorld {
  environ : string -> string;        (* os.Getenv; empty when unset *)
  wall : Source Time;                (* time.Now() *)
  uuids : Source string;             (* uuid.New().String() *)
  oids : Source ObjectID;            (* the driver's new ObjectIDs *)
  link : Source bool;                (* does the next round trip succeed? *)
  db : gmap string (list Todo);      (* collection name -> documents *)
}.

(** Handlers and driver calls are state transformers over the world. *)
Definition M (A : Type) : Type := World -> A * World.

Definition ret {A} (a : A) : M A := fun w => (a, w).
Definition bind {A B} (m : M A) (k : A -> M B) : M B :=
  fun w => let '(a, w1) := m w in k a w1.

Notation "'do' x <- c1 ; c2" := (bind c1 (fun x => c2))
  (at level 10, x name, c1 at level 100, c2 at level 200).

Definition Getenv (key : string) : M string :=
  fun w => (environ w key, w).

Definition time_Now : M Time :=
  fun w => (peek (wall w),
            mkWorld (environ w) (advance (wall w)) (uuids w) (oids w)
                    (link w) (db w)).

Definition uuid_New_String : M string :=
  fun w => (peek (uuids w),
            mkWorld (environ w) (wall w) (advance (uuids w)) (oids w)
                    (link w) (db w)).

Definition NewObjectID : M ObjectID :=
  fun w => (peek (oids w),
            mkWorld (environ w) (wall w) (uuids w) (advance (oids w))
                    (link w) (db w)).

(** One round trip to the database: [true] when it comes back, [false]
    when it is lost or times out; an operation whose round trip fails
    leaves the collection as it was. *)
Definition roundTrip : M bool :=
  fun w => (peek (link w),
            mkWorld (environ w) (wall w) (uuids w) (oids w)
                    (advance (link w)) (db w)).

(** The documents of a collection; a collection never written is empty. *)
Definition documents (name : string) (w : World) : list Todo :=
  default [] (db w !! name).

Definition readDocuments (name : string) : M (list Todo) :=
  fun w => (documents name w, w).

Definition writeDocuments (name : string) (l : list Todo) : M unit :=
  fun w => (tt,
            mkWorld (environ w) (wall w) (uuids w) (oids w) (link w)
                    (<[name := l]> (db w))).

End runtime.

(** ** The collection operations of the driver *)

Module mongo.
Import primitive models runtime.

(** The BSON values the handlers put into filters and updates. *)
Inductive bson :=
| B_ObjectID (o : ObjectID)
| B_String (s : string)
| B_Boolean (b : bool)
| B_DateTime (t : Time).

#[export] Instance bson_eq_dec : EqDecision bson.
Proof. solve_decision. Defined.

(** The stored form of a [Todo]: its fields under their [bson] tags. *)
Definition field (key : string) (t : Todo) : option bson :=
  if String.eqb key "_id" then Some (B_ObjectID (ID t))
  else if String.eqb key "user_id" then Some (B_String (UserID t))
  else if String.eqb key "title" then Some (B_String (Title t))
  else if String.eqb key "description" then Some (B_String (Description t))
  else if String.eqb key "completed" then Some (B_Boolean (Completed t))
  else if String.eqb key "created_at" then Some (B_DateTime (CreatedAt t))
  else if String.eqb key "updated_at" then Some (B_DateTime (UpdatedAt t))
  else None.

(** A filter document [bson.M{k1: v1, ...}] selects the documents that
    hold every listed value under its key. *)
Definition matches (filter : gmap string bson) (t : Todo) : bool :=
  bool_decide (map_Forall (fun k v => field k t = Some v) filter).

(** [{"$set": fields}] on a stored todo: each listed field takes the
    listed value, every other field stays.  [_id] cannot be set, and the
    handlers list only values of the field's own type. *)
Definition applySet (fields : gmap string bson) (t : Todo) : Todo :=
  {| ID := ID t;
     UserID := match fields !! "user_id" with
               | Some (B_String s) => s | _ => UserID t end;
     Title := match fields !! "title" with
              | Some (B_String s) => s | _ => Title t end;
     Description := match fields !! "description" with
                    | Some (B_String s) => s | _ => Description t end;
     Completed := match fields !! "completed" with
                  | Some (B_Boolean b) => b | _ => Completed t end;
     CreatedAt := match fields !! "created_at" with
                  | Some (B_DateTime x) => x | _ => CreatedAt t end;
     UpdatedAt := match fields !! "updated_at" with
                  | Some (B_DateTime x) => x | _ => UpdatedAt t end |}.

Inductive error :=
| ErrTransport      (* the round trip failed or timed out *)
| ErrDuplicateKey   (* the unique index on _id refused the insert *)
| ErrNoDocuments.   (* FindOne found nothing to decode *)

(** A Go slice is nil or holds elements; [cursor.All] into a nil slice
    leaves it nil when the cursor is empty. *)
Inductive slice (A : Type) :=
| nil_slice
| elements (l : list A).
Arguments nil_slice {A}.
Arguments elements {A} _.

(** The first document selected by [p] is replaced; the count is
    [MatchedCount]. *)
Fixpoint updateFirst (p : Todo -> bool) (f : Todo -> Todo) (l : list Todo)
  : list Todo * Z :=
  match l with
  | [] => ([], 0%Z)
  | t :: rest =>
      if p t then (f t :: rest, 1%Z)
      else let '(rest', n) := updateFirst p f rest in (t :: rest', n)
  end.

(** The first document selected by [p] is removed; the count is
    [DeletedCount]. *)
Fixpoint deleteFirst (p : Todo -> bool) (l : list Todo) : list Todo * Z :=
  match l with
  | [] => ([], 0%Z)
  | t :: rest =>
      if p t then (rest, 1%Z)
      else let '(rest', n) := deleteFirst p rest in (t :: rest', n)
  end.

(** Modelled from the spec: package [database] is not among the sources.
    Its [GetCollection] gives "a handle for performing
    find/insert/update/delete operations" on the named collection of the
    one connected database; the handle is the collection's name. *)
Definition GetCollection (name : string) : string := name.

(** [collection.Find(ctx, filter)]: the cursor over the selected
    documents, in stored order. *)
Definition Find (coll : string) (filter : gmap string bson)
  : M (error + list Todo) :=
  do up <- roundTrip;
  if up then
    do l <- readDocuments coll;
    ret (inr (List.filter (matches filter) l))
  else ret (inl ErrTransport).

(** [cursor.All(ctx, &todos)] with [todos] nil: fetching the rest of the
    cursor is a round trip of its own. *)
Definition cursor_All (cursor : list Todo) : M (error + slice Todo) :=
  do up <- roundTrip;
  if up then
    ret (inr (match cursor with [] => nil_slice | _ => elements cursor end))
  else ret (inl ErrTransport).

(** [collection.InsertOne(ctx, todo)]: the zero [_id] is left out of the
    document ([omitempty]) and the driver supplies a new one; the unique
    index on [_id] refuses a second document with the same value.  The
    result is [InsertedID].  The instants of the document are kept as
    they are given; the driver writes them as BSON DateTime, which
    counts milliseconds, so this is exact for instants that fall on a
    millisecond, and what is said below of the document a create adds
    to the store leaves its timestamps open. *)
Definition InsertOne (coll : string) (doc : Todo) : M (error + ObjectID) :=
  do oid <- (if N.eqb (ID doc) NilObjectID then NewObjectID else ret (ID doc));
  do up <- roundTrip;
  if up then
    do l <- readDocuments coll;
    if existsb (fun t => N.eqb (ID t) oid) l then ret (inl ErrDuplicateKey)
    else
      do _ <- writeDocuments coll
             (l ++ [mkTodo oid (UserID doc) (Title doc) (Description doc)
                      (Completed doc) (CreatedAt doc) (UpdatedAt doc)]);
      ret (inr oid)
  else ret (inl ErrTransport).

(** [collection.UpdateOne(ctx, filter, {"$set": fields})]; the result is
    [MatchedCount]. *)
Definition UpdateOne (coll : string) (filter fields : gmap string bson)
  : M (error + Z) :=
  do up <- roundTrip;
  if up then
    do l <- readDocuments coll;
    let '(l', n) := updateFirst (matches filter) (applySet fields) l in
    do _ <- writeDocuments coll l';
    ret (inr n)
  else ret (inl ErrTransport).

(** [collection.FindOne(ctx, filter).Decode(&todo)]. *)
Definition FindOne (coll : string) (filter : gmap string bson)
  : M (error + Todo) :=
  do up <- roundTrip;
  if up then
    do l <- readDocuments coll;
    ret (match List.find (matches filter) l with
         | Some t => inr t
         | None => inl ErrNoDocuments
         end)
  else ret (inl ErrTransport).

(** [collection.DeleteOne(ctx, filter)]; the result is [DeletedCount]. *)
Definition DeleteOne (coll : string) (filter : gmap string bson)
  : M (error + Z) :=
  do up <- roundTrip;
  if up then
    do l <- readDocuments coll;
    let '(l', n) := deleteFirst (matches filter) l in
    do _ <- writeDocuments coll l';
    ret (inr n)
  else ret (inl ErrTransport).

End mongo.

(** ** The request context of gin *)

Module gin.
Import primitive models encoding runtime mongo.

(** A [Set-Cookie] header, by the arguments of [c.SetCookie]. *)
Record Cookie := mkCookie {
  Name : string;
  Value : string;
  MaxAge : Z;
  Path : string;
  Domain : string;
  Secure : bool;
  HttpOnly : bool;
}.

(** The values the handlers place in a [gin.H]. *)
Inductive value :=
| V_string (s : string)
| V_Error (e : bindError)          (* err.Error() of a binding error *)
| V_Todo (t : Todo)
| V_Todos (ts : slice Todo).

(** What [encoding/json] writes for such a value: a nil slice is written
    as [null], a slice with elements (even none) as an array. *)
Inductive wire :=
| W_null
| W_string (s : string)
| W_errorText (e : bindError)
| W_object (t : Todo)
| W_array (items : list Todo).

Definition marshal (v : value) : wire :=
  match v with
  | V_string s => W_string s
  | V_Error e => W_errorText e
  | V_Todo t => W_object t
  | V_Todos nil_slice => W_null
  | V_Todos (elements l) => W_array l
  end.

Record Context := newContext {
  Request_cookies : list (string * string);  (* name and value of the request's
                                                cookies, as c.Cookie reads them *)
  Request_body : option json;                (* the body's JSON value, if any *)
  Params : gmap string string;               (* path parameters *)
  Keys : gmap string string;                 (* c.Set / c.Get *)
  Writer_cookies : list Cookie;              (* the Set-Cookie headers written *)
  Writer_response : option (Z * gmap string value);  (* status and JSON body *)
  Writer_text : option (Z * string);         (* status and plain-text body *)
}.

(** A context on which no plain-text body has been written. *)
Definition mkContext (cookies : list (string * string)) (body : option json)
    (params keys : gmap string string) (written : list Cookie)
    (response : option (Z * gmap string value)) : Context :=
  newContext cookies body params keys written response None.

Definition HandlerFunc : Type := Context -> M Context.

Definition StatusOK : Z := 200.
Definition StatusCreated : Z := 201.
Definition StatusBadRequest : Z := 400.
Definition StatusUnauthorized : Z := 401.
Definition StatusNotFound : Z := 404.
Definition StatusInternalServerError : Z := 500.

(** The bytes net/http allows in a cookie name: those of an HTTP token. *)
Definition isTokenChar (a : ascii) : bool :=
  let n := N_of_ascii a in
  ((48 <=? n) && (n <=? 57) ||            (* 0-9 *)
   (65 <=? n) && (n <=? 90) ||            (* A-Z *)
   (94 <=? n) && (n <=? 122) ||           (* ^ _ ` a-z *)
   (35 <=? n) && (n <=? 39) ||            (* # $ % & ' *)
   (n =? 33) || (n =? 42) || (n =? 43) || (* ! * + *)
   (n =? 45) || (n =? 46) ||              (* - . *)
   (n =? 124) || (n =? 126))%N.           (* | ~ *)

Fixpoint allToken (s : string) : bool :=
  match s with
  | EmptyString => true
  | String a rest => isTokenChar a && allToken rest
  end.

(** [isCookieNameValid] of net/http: a non-empty token. *)
Definition isCookieNameValid (name : string) : bool :=
  negb (String.eqb name "") && allToken name.

Fixpoint lookupCookie (name : string) (l : list (string * string))
  : option string :=
  match l with
  | [] => None
  | (k, v) :: rest => if String.eqb k name then Some v else lookupCookie name rest
  end.

(** What [Request.Cookie(name)] finds: the value of the first cookie of
    that name.  net/http reads from the request only cookies whose name
    is valid, so under a name that is not valid it finds none. *)
Definition firstCookie (name : string) (l : list (string * string))
  : option string :=
  if isCookieNameValid name then lookupCookie name l else None.

(** [c.Cookie(name)]; the flag is [err != nil]. *)
Definition Cookie_ (c : Context) (name : string) : string * bool :=
  match firstCookie name (Request_cookies c) with
  | Some v => (v, false)
  | None => ("", true)
  end.

(** [c.SetCookie(name, value, maxAge, path, domain, secure, httpOnly)]:
    an empty path becomes "/", and [http.SetCookie] adds one more
    [Set-Cookie] header, unless the cookie's name is not valid: then it
    writes nothing. *)
Definition SetCookie (c : Context) (name value : string) (maxAge : Z)
    (path domain : string) (secure httpOnly : bool) : Context :=
  if isCookieNameValid name then
    newContext (Request_cookies c) (Request_body c) (Params c) (Keys c)
      (Writer_cookies c ++
         [mkCookie name value maxAge (if String.eqb path "" then "/" else path)
            domain secure httpOnly])
      (Writer_response c) (Writer_text c)
  else c.

Definition Set_ (c : Context) (key val : string) : Context :=
  newContext (Request_cookies c) (Request_body c) (Params c)
    (<[key := val]> (Keys c)) (Writer_cookies c) (Writer_response c)
    (Writer_text c).

Definition Get (c : Context) (key : string) : option string := Keys c !! key.

Definition Param (c : Context) (key : string) : string :=
  default "" (Params c !! key).

(** [c.JSON(code, obj)]. *)
Definition JSON (c : Context) (code : Z) (obj : gmap string value) : Context :=
  newContext (Request_cookies c) (Request_body c) (Params c) (Keys c)
    (Writer_cookies c) (Some (code, obj)) None.

(** A status with a [text/plain] body, as the engine writes it when no
    route matches. *)
Definition plainText (c : Context) (code : Z) (text : string) : Context :=
  newContext (Request_cookies c) (Request_body c) (Params c) (Keys c)
    (Writer_cookies c) None (Some (code, text)).

Definition status (c : Context) : option Z :=
  match Writer_response c with
  | Some r => Some r.1
  | None => fst <$> Writer_text c
  end.

End gin.

(** ** package middleware *)

Module middleware.
Import primitive models encoding runtime mongo gin.

(** [AuthMiddleware]; [next] is the rest of the handler chain, which
    [c.Next()] runs. *)
Definition AuthMiddleware (next : HandlerFunc) : HandlerFunc := fun c =>
  do cookieName <- Getenv "COOKIE_NAME";
  let cookieName :=
    if String.eqb cookieName "" then "todo_user_id" else cookieName in
  let '(userID, err) := Cookie_ c cookieName in
  do r <- (if err || String.eqb userID "" then
             do userID <- uuid_New_String;
             ret (userID,
                  SetCookie c cookieName userID (24 * 60 * 60) "/" ""
                    false true)
           else ret (userID, c));
  let '(userID, c) := r in
  let c := Set_ c "user_id" userID in
  next c.

End middleware.

(** ** package handlers *)

Module handlers.
Import primitive models encoding runtime mongo gin.

Definition collectionName : M string :=
  do name <- Getenv "COLLECTION_NAME";
  ret (if String.eqb name "" then "todos" else name).

Definition unauthenticated (c : Context) : Context :=
  JSON c StatusUnauthorized {["error" := V_string "User not authenticated"]}.

Definition GetTodos : HandlerFunc := fun c =>
  match Get c "user_id" with
  | None => ret (unauthenticated c)
  | Some userID =>
      do collectionName <- collectionName;
      let collection := GetCollection collectionName in
      let filter : gmap string bson := {["user_id" := B_String userID]} in
      do found <- Find collection filter;
      match found with
      | inl _ =>
          ret (JSON c StatusInternalServerError
                 {["error" := V_string "Failed to fetch todos"]})
      | inr cursor =>
          do decoded <- cursor_All cursor;
          match decoded with
          | inl _ =>
              ret (JSON c StatusInternalServerError
                     {["error" := V_string "Failed to decode todos"]})
          | inr todos =>
              let todos :=
                match todos with
                | nil_slice => elements []
                | _ => todos
                end in
              ret (JSON c StatusOK {["todos" := V_Todos todos]})
          end
      end
  end.

Definition CreateTodo : HandlerFunc := fun c =>
  match Get c "user_id" with
  | None => ret (unauthenticated c)
  | Some userID =>
      match bindCreate (Request_body c) with
      | inl err => ret (JSON c StatusBadRequest {["error" := V_Error err]})
      | inr req =>
          do collectionName <- collectionName;
          do createdAt <- time_Now;
          do updatedAt <- time_Now;
          let todo :=
            mkTodo NilObjectID userID (create_Title req)
              (create_Description req) false createdAt updatedAt in
          let collection := GetCollection collectionName in
          do result <- InsertOne collection todo;
          match result with
          | inl _ =>
              ret (JSON c StatusInternalServerError
                     {["error" := V_string "Failed to create todo"]})
          | inr insertedID =>
              let todo :=
                mkTodo insertedID (UserID todo) (Title todo)
                  (Description todo) (Completed todo) (CreatedAt todo)
                  (UpdatedAt todo) in
              ret (JSON c StatusCreated {["todo" := V_Todo todo]})
          end
      end
  end.

(** The [$set] document of [UpdateTodo]: the refreshed timestamp, and
    each field whose pointer is not nil. *)
Definition updateFields (now : Time) (req : UpdateTodoRequest)
  : gmap string bson :=
  let set : gmap string bson := {["updated_at" := B_DateTime now]} in
  let set :=
    match update_Title req with
    | Some s => <["title" := B_String s]> set
    | None => set
    end in
  let set :=
    match update_Description req with
    | Some s => <["description" := B_String s]> set
    | None => set
    end in
  match update_Completed req with
  | Some b => <["completed" := B_Boolean b]> set
  | None => set
  end.

(** The filter of [UpdateTodo] and [DeleteTodo]. *)
Definition ownedBy (objectID : ObjectID) (userID : string) : gmap string bson :=
  {["_id" := B_ObjectID objectID; "user_id" := B_String userID]}.

Definition UpdateTodo : HandlerFunc := fun c =>
  match Get c "user_id" with
  | None => ret (unauthenticated c)
  | Some userID =>
      let todoID := Param c "id" in
      match ObjectIDFromHex todoID with
      | None =>
          ret (JSON c StatusBadRequest {["error" := V_string "Invalid todo ID"]})
      | Some objectID =>
          match bindUpdate (Request_body c) with
          | inl err => ret (JSON c StatusBadRequest {["error" := V_Error err]})
          | inr req =>
              do collectionName <- collectionName;
              let collection := GetCollection collectionName in
              do now <- time_Now;
              let update := updateFields now req in
              let filter := ownedBy objectID userID in
              do result <- UpdateOne collection filter update;
              match result with
              | inl _ =>
                  ret (JSON c StatusInternalServerError
                         {["error" := V_string "Failed to update todo"]})
              | inr matchedCount =>
                  if Z.eqb matchedCount 0 then
                    ret (JSON c StatusNotFound
                           {["error" := V_string "Todo not found"]})
                  else
                    do fetched <- FindOne collection filter;
                    match fetched with
                    | inl _ =>
                        ret (JSON c StatusInternalServerError
                               {["error" :=
                                   V_string "Failed to fetch updated todo"]})
                    | inr updatedTodo =>
                        ret (JSON c StatusOK {["todo" := V_Todo updatedTodo]})
                    end
              end
          end
      end
  end.

Definition DeleteTodo : HandlerFunc := fun c =>
  match Get c "user_id" with
  | None => ret (unauthenticated c)
  | Some userID =>
      let todoID := Param c "id" in
      match ObjectIDFromHex todoID with
      | None =>
          ret (JSON c StatusBadRequest {["error" := V_string "Invalid todo ID"]})
      | Some objectID =>
          do collectionName <- collectionName;
          let collection := GetCollection collectionName in
          let filter := ownedBy objectID userID in
          do result <- DeleteOne collection filter;
          match result with
          | inl _ =>
              ret (JSON c StatusInternalServerError
                     {["error" := V_string "Failed to delete todo"]})
          | inr deletedCount =>
              if Z.eqb deletedCount 0 then
                ret (JSON c StatusNotFound
                       {["error" := V_string "Todo not found"]})
              else
                ret (JSON c StatusOK
                       {["message" := V_string "Todo deleted successfully"]})
          end
      end
  end.

End handlers.

(** ** package main: the route table *)

Module router.
Import primitive models encoding runtime mongo gin middleware handlers.

(** The route a request's method and path select. *)
Inductive Route :=
| GET_todos
| POST_todos
| PUT_todos_id (id : string)
| DELETE_todos_id (id : string)
| GET_health
| NoRoute.

Definition health : HandlerFunc := fun c =>
  ret (JSON c StatusOK
         {["status" := V_string "ok";
           "message" := V_string "Todo API is running"]}).

(** No route matches: the chain holds the middleware only, and the
    engine then writes its default answer, 404 with a plain-text body. *)
Definition noRoute : HandlerFunc := fun c =>
  ret (plainText c StatusNotFound "404 page not found").

Definition handlerOf (r : Route) : HandlerFunc :=
  match r with
  | GET_todos => GetTodos
  | POST_todos => CreateTodo
  | PUT_todos_id _ => UpdateTodo
  | DELETE_todos_id _ => DeleteTodo
  | GET_health => health
  | NoRoute => noRoute
  end.

Definition paramsOf (r : Route) : gmap string string :=
  match r with
  | PUT_todos_id id | DELETE_todos_id id => {["id" := id]}
  | _ => ∅
  end.

(** A request as it reaches the engine once the CORS middleware has let
    it through: [router.Use(middleware.AuthMiddleware())] puts the
    identity middleware ahead of every handler. *)
Definition ServeHTTP (r : Route) (cookies : list (string * string))
    (body : option json) : M Context :=
  AuthMiddleware (handlerOf r)
    (mkContext cookies body (paramsOf r) ∅ [] None).

End router.

(** * Properties *)

Import primitive models encoding runtime mongo gin middleware handlers router.
Local Open Scope list_scope.

(** ** Vocabulary of the statements *)

(** The collection the handlers work on in a world, and its documents. *)
Definition collectionOf (w : World) : string :=
  if String.eqb (environ w "COLLECTION_NAME") "" then "todos"
  else environ w "COLLECTION_NAME".

Definition todos (w : World) : list Todo := documents (collectionOf w) w.

(** The cookie name the middleware looks for in a world. *)
Definition cookieNameOf (w : World) : string :=
  if String.eqb (environ w "COOKIE_NAME") "" then "todo_user_id"
  else environ w "COOKIE_NAME".

(** The unique index on [_id]: no two stored documents share one. *)
Definition uniqueIDs (l : list Todo) : Prop := NoDup (ID <$> l).

(** The worlds the server can be in: it starts on an empty collection
    and serves one request after another. *)
Inductive reachable : World -> Prop :=
| reachable_start (w : World) : todos w = [] -> reachable w
| reachable_serve (w : World) (r : Route) (cookies : list (string * string))
    (body : option json) :
    reachable w -> reachable (ServeHTTP r cookies body w).2.

(** The world after one step of each kind. *)
Definition afterRoundTrip (w : World) : World := (roundTrip w).2.
Definition afterClock (w : World) : World := (time_Now w).2.
Definition afterObjectID (w : World) : World := (NewObjectID w).2.
Definition afterUUID (w : World) : World := (uuid_New_String w).2.
Definition stored (l : list Todo) (w : World) : World :=
  (writeDocuments (collectionOf w) l w).2.

(** The 404 answer of update and delete. *)
Definition notFound (c : Context) : Context :=
  JSON c StatusNotFound {["error" := V_string "Todo not found"]}.

(** The todo a create by [u] with request [req] builds and stores in [w]. *)
Definition created (u : string) (req : CreateTodoRequest) (w : World) : Todo :=
  mkTodo (peek (oids w)) u (create_Title req) (create_Description req) false
    (peek (wall w)) (peek (wall (afterClock w))).

(** The todo an update turns [old] into, field by field. *)
Definition updated (now : Time) (req : UpdateTodoRequest) (old : Todo) : Todo :=
  mkTodo (ID old) (UserID old)
    (match update_Title req with Some s => s | None => Title old end)
    (match update_Description req with Some s => s | None => Description old end)
    (match update_Completed req with Some b => b | None => Completed old end)
    (CreatedAt old) now.

(** A key that is not [title]. *)
Definition notTitle (kv : string * json) : Prop := equalFold kv.1 "title" = false.

(** A key that names no field of [CreateTodoRequest]. *)
Definition extraField (k : string) : Prop :=
  equalFold k "title" = false /\ equalFold k "description" = false.

(** Every title is non-empty. *)
Definition titled (l : list Todo) : Prop := Forall (fun t => Title t <> "") l.

(** Two todos that agree in identifier, owner, title, description and
    completed flag; the timestamps are left open. *)
Definition sameApartFromTimes (a b : Todo) : Prop :=
  ID a = ID b /\ UserID a = UserID b /\ Title a = Title b /\
  Description a = Description b /\ Completed a = Completed b.

(** The cookie the middleware sets when it mints an identity in [w]. *)
Definition identityCookie (w : World) : Cookie :=
  mkCookie (cookieNameOf w) (peek (uuids w)) 86400 "/" "" false true.

(** The identity a request with these cookies is served under in [w]:
    the presented cookie when it is there and not empty, the
    generator's next token otherwise. *)
Definition resolvedIdentity (cookies : list (string * string)) (w : World)
  : string :=
  match firstCookie (cookieNameOf w) cookies with
  | Some v => if String.eqb v "" then peek (uuids w) else v
  | None => peek (uuids w)
  end.

(** The todos of a list that [u] does not own. *)
Definition othersOf (u : string) (l : list Todo) : list Todo :=
  List.filter (fun t => negb (String.eqb (UserID t) u)) l.

(** The characters of a path parameter that are no hexadecimal digit. *)
Definition notHex (a : ascii) : Prop := fromHexChar a = None.

(** Every stored todo was created no later than it was last updated,
    and last updated no later than the clock reads now. *)
Definition timely (w : World) : Prop :=
  Forall (fun t => (CreatedAt t <= UpdatedAt t)%Z /\
                   (UpdatedAt t <= peek (wall w))%Z) (todos w).

(** A clock that never goes back. *)
Definition monotone (s : Source Time) : Prop :=
  forall m n, m <= n -> (feed s m <= feed s n)%Z.

(** A world with default settings whose database always answers: the
    clock reads 100, 101, ...; the driver's identifiers are 1, 2, ... *)
Definition calmWorld (docs : list Todo) : World :=
  mkWorld (fun _ => "")
    (mkSource (fun n => (100 + Z.of_nat n)%Z) 0)
    (mkSource (fun n => if Nat.eqb n 0 then "uuid-a" else "uuid-b") 0)
    (mkSource (fun n => (1 + N.of_nat n)%N) 0)
    (mkSource (fun _ => true) 0)
    {["todos" := docs]}.

(** A request context as a handler sees it behind the middleware. *)
Definition requestOf (u id : string) (body : option json) : Context :=
  mkContext [] body {["id" := id]} {["user_id" := u]} [] None.

(** Another stored todo of "alice", under an identifier the driver of
    [calmWorld] does not hand out first. *)
Definition todoB : Todo := mkTodo 7%N "alice" "water plants" "" false 90%Z 95%Z.

(** A stored todo of caller "alice". *)
Definition todoA : Todo := mkTodo 1%N "alice" "buy milk" "" false 100%Z 100%Z.

(** Unfolding the state monad and the driver calls, and nothing else. *)
Ltac run :=
  cbv beta iota zeta delta
    [bind ret Getenv time_Now uuid_New_String NewObjectID roundTrip
     readDocuments writeDocuments collectionName GetCollection
     Find cursor_All InsertOne UpdateOne FindOne DeleteOne].

(** ** Filters *)

Lemma matches_owner (u : string) (t : Todo) :
  matches {["user_id" := B_String u]} t = true <-> UserID t = u.
Proof.
  unfold matches. rewrite bool_decide_eq_true, map_Forall_singleton.
  cbn. naive_solver.
Qed.

Lemma matches_ownedBy (i : ObjectID) (u : string) (t : Todo) :
  matches (ownedBy i u) t = true <-> ID t = i /\ UserID t = u.
Proof.
  unfold matches, ownedBy. rewrite bool_decide_eq_true.
  rewrite map_Forall_insert by done. rewrite map_Forall_singleton.
  cbn. split.
  - intros [Hid Hu]. inversion Hid. inversion Hu. auto.
  - intros [Hid Hu]. rewrite Hid, Hu. auto.
Qed.

Lemma matches_ownedBy_false (i : ObjectID) (u : string) (t : Todo) :
  matches (ownedBy i u) t = false <-> ~ (ID t = i /\ UserID t = u).
Proof.
  rewrite <- matches_ownedBy. destruct (matches (ownedBy i u) t); naive_solver.
Qed.

(** ** The list operations behind [UpdateOne], [DeleteOne] and [FindOne] *)

Section first_match.
Variable p : Todo -> bool.

Lemma updateFirst_none (f : Todo -> Todo) (l : list Todo) :
  Forall (fun t => p t = false) l -> updateFirst p f l = (l, 0%Z).
Proof.
  induction 1 as [|t l Ht _ IH]; [done|].
  cbn. by rewrite Ht, IH.
Qed.

Lemma deleteFirst_none (l : list Todo) :
  Forall (fun t => p t = false) l -> deleteFirst p l = (l, 0%Z).
Proof.
  induction 1 as [|t l Ht _ IH]; [done|].
  cbn. by rewrite Ht, IH.
Qed.

(** A list with a selected element splits at the first one. *)
Lemma first_split (l : list Todo) :
  Exists (fun t => p t = true) l ->
  exists l1 t l2,
    l = l1 ++ t :: l2 /\ Forall (fun x => p x = false) l1 /\ p t = true.
Proof.
  induction l as [|x l IH]; intros Hex.
  - by apply Exists_nil in Hex.
  - destruct (p x) eqn:Hx.
    + exists [], x, l. by repeat split.
    + apply Exists_cons in Hex as [Hex|Hex]; [congruence|].
      destruct (IH Hex) as (l1 & t & l2 & -> & Hl1 & Ht).
      exists (x :: l1), t, l2. repeat split; [|done]. by constructor.
Qed.

Lemma updateFirst_split (f : Todo -> Todo) (l1 l2 : list Todo) (t : Todo) :
  Forall (fun x => p x = false) l1 -> p t = true ->
  updateFirst p f (l1 ++ t :: l2) = (l1 ++ f t :: l2, 1%Z).
Proof.
  intros Hl1 Ht. induction Hl1 as [|x l1 Hx _ IH]; cbn.
  - by rewrite Ht.
  - by rewrite Hx, IH.
Qed.

Lemma deleteFirst_split (l1 l2 : list Todo) (t : Todo) :
  Forall (fun x => p x = false) l1 -> p t = true ->
  deleteFirst p (l1 ++ t :: l2) = (l1 ++ l2, 1%Z).
Proof.
  intros Hl1 Ht. induction Hl1 as [|x l1 Hx _ IH]; cbn.
  - by rewrite Ht.
  - by rewrite Hx, IH.
Qed.

Lemma find_split (l1 l2 : list Todo) (t : Todo) :
  Forall (fun x => p x = false) l1 -> p t = true ->
  List.find p (l1 ++ t :: l2) = Some t.
Proof.
  intros Hl1 Ht. induction Hl1 as [|x l1 Hx _ IH]; cbn.
  - by rewrite Ht.
  - by rewrite Hx.
Qed.

(** Either nothing is selected or something is. *)
Lemma selected_dec (l : list Todo) :
  Forall (fun t => p t = false) l \/ Exists (fun t => p t = true) l.
Proof.
  induction l as [|x l [IH|IH]].
  - left. constructor.
  - destruct (p x) eqn:Hx; [right; by left | left; by constructor].
  - right. by right.
Qed.

Lemma updateFirst_count (f : Todo -> Todo) (l : list Todo) :
  (updateFirst p f l).2 = 0%Z <-> Forall (fun t => p t = false) l.
Proof.
  split.
  - intros Hn. destruct (selected_dec l) as [|Hex]; [done|].
    destruct (first_split l Hex) as (l1 & t & l2 & -> & Hl1 & Ht).
    by rewrite updateFirst_split in Hn.
  - intros Hall. by rewrite updateFirst_none.
Qed.

Lemma deleteFirst_count (l : list Todo) :
  (deleteFirst p l).2 = 0%Z <-> Forall (fun t => p t = false) l.
Proof.
  split.
  - intros Hn. destruct (selected_dec l) as [|Hex]; [done|].
    destruct (first_split l Hex) as (l1 & t & l2 & -> & Hl1 & Ht).
    by rewrite deleteFirst_split in Hn.
  - intros Hall. by rewrite deleteFirst_none.
Qed.

End first_match.

(** ** The unique index is kept by every list operation *)

Lemma uniqueIDs_updateFirst (p : Todo -> bool) (f : Todo -> Todo)
    (l : list Todo) :
  (forall t, ID (f t) = ID t) ->
  uniqueIDs l -> uniqueIDs (updateFirst p f l).1.
Proof.
  intros Hf. unfold uniqueIDs.
  assert (ID <$> (updateFirst p f l).1 = ID <$> l) as ->; [|done].
  induction l as [|x l IH]; [done|]. cbn.
  destruct (p x); cbn; [by rewrite Hf|].
  destruct (updateFirst p f l) as [l' n]. cbn in *. by rewrite IH.
Qed.

Lemma uniqueIDs_deleteFirst (p : Todo -> bool) (l : list Todo) :
  uniqueIDs l -> uniqueIDs (deleteFirst p l).1.
Proof.
  unfold uniqueIDs. induction l as [|x l IH]; [done|]. cbn.
  intros [Hx Hl]%NoDup_cons. destruct (p x); cbn; [done|].
  destruct (deleteFirst p l) as [l' n] eqn:Hd. cbn in *.
  apply NoDup_cons. split; [|by apply IH].
  intros Hin. apply Hx. clear -Hin Hd.
  revert l' n Hd Hin. induction l as [|y l IH]; intros l' n Hd Hin.
  - cbn in Hd. injection Hd as <- <-. done.
  - cbn in Hd. destruct (p y).
    + injection Hd as <- <-. cbn. by right.
    + destruct (deleteFirst p l) as [l0 n0]. injection Hd as <- <-.
      cbn in Hin. apply elem_of_cons in Hin as [->|Hin]; cbn; [by left|].
      right. by eapply IH.
Qed.

Lemma existsb_ID_false (oid : ObjectID) (l : list Todo) :
  existsb (fun t => N.eqb (ID t) oid) l = false <-> oid ∉ ID <$> l.
Proof.
  induction l as [|x l IH]; cbn.
  - split; [intros _; apply not_elem_of_nil | done].
  - rewrite orb_false_iff, IH, not_elem_of_cons, N.eqb_neq.
    split; intros [Hne Hnin]; split; auto.
Qed.

Lemma uniqueIDs_snoc (l : list Todo) (t : Todo) :
  uniqueIDs l -> ID t ∉ ID <$> l -> uniqueIDs (l ++ [t]).
Proof.
  unfold uniqueIDs. intros Hl Ht. rewrite fmap_app. cbn.
  apply NoDup_app. repeat split; [done| |apply NoDup_singleton].
  intros x Hx ->%list_elem_of_singleton. done.
Qed.

(** Once the document with identifier [i] is deleted, none is left. *)
Lemma uniqueIDs_deleted (l1 l2 : list Todo) (t : Todo) :
  uniqueIDs (l1 ++ t :: l2) ->
  Forall (fun x => ID x <> ID t) (l1 ++ l2).
Proof.
  unfold uniqueIDs. rewrite fmap_app, fmap_cons.
  intros Hnd. apply NoDup_app in Hnd as (_ & Hdisj & [Ht _]%NoDup_cons).
  apply Forall_app. split; apply Forall_forall; intros x Hx Heq.
  - apply (Hdisj (ID x)); [by apply list_elem_of_fmap_2|]. rewrite Heq. by left.
  - apply Ht. rewrite <- Heq. by apply list_elem_of_fmap_2.
Qed.

(** ** Worlds after one step *)

Lemma todos_stored (l : list Todo) (w : World) : todos (stored l w) = l.
Proof.
  unfold todos, stored, documents, writeDocuments, collectionOf. cbn.
  by rewrite lookup_insert_eq.
Qed.

Lemma todos_afterRoundTrip (w : World) : todos (afterRoundTrip w) = todos w.
Proof. reflexivity. Qed.

Lemma todos_afterClock (w : World) : todos (afterClock w) = todos w.
Proof. reflexivity. Qed.

Lemma todos_afterObjectID (w : World) : todos (afterObjectID w) = todos w.
Proof. reflexivity. Qed.

Lemma todos_afterUUID (w : World) : todos (afterUUID w) = todos w.
Proof. reflexivity. Qed.

(** ** [DeleteTodo], step by step *)

Lemma DeleteTodo_run (c : Context) (w : World) (u : string) (i : ObjectID) :
  Get c "user_id" = Some u ->
  ObjectIDFromHex (Param c "id") = Some i ->
  DeleteTodo c w =
    if peek (link w) then
      let r := deleteFirst (matches (ownedBy i u)) (todos w) in
      (if Z.eqb r.2 0 then notFound c
       else JSON c StatusOK
              {["message" := V_string "Todo deleted successfully"]},
       stored r.1 (afterRoundTrip w))
    else
      (JSON c StatusInternalServerError
         {["error" := V_string "Failed to delete todo"]},
       afterRoundTrip w).
Proof.
  intros Hu Hi. unfold DeleteTodo. rewrite Hu, Hi. run.
  destruct (peek (link w)) eqn:Hup; [|done].
  fold (collectionOf w).
  change (documents (collectionOf w) _) with (todos w).
  destruct (deleteFirst (matches (ownedBy i u)) (todos w)) as [l' n].
  cbn [fst snd]. by destruct (Z.eqb n 0).
Qed.

(** ** [UpdateTodo], step by step *)

Lemma UpdateTodo_bad_body (c : Context) (w : World) (u : string)
    (i : ObjectID) (e : bindError) :
  Get c "user_id" = Some u ->
  ObjectIDFromHex (Param c "id") = Some i ->
  bindUpdate (Request_body c) = inl e ->
  UpdateTodo c w = (JSON c StatusBadRequest {["error" := V_Error e]}, w).
Proof. intros Hu Hi Hb. unfold UpdateTodo. by rewrite Hu, Hi, Hb. Qed.

Lemma UpdateTodo_run (c : Context) (w : World) (u : string) (i : ObjectID)
    (req : UpdateTodoRequest) :
  Get c "user_id" = Some u ->
  ObjectIDFromHex (Param c "id") = Some i ->
  bindUpdate (Request_body c) = inr req ->
  UpdateTodo c w =
    if peek (link w) then
      let r := updateFirst (matches (ownedBy i u))
                 (applySet (updateFields (peek (wall w)) req)) (todos w) in
      let w2 := stored r.1 (afterRoundTrip (afterClock w)) in
      if Z.eqb r.2 0 then (notFound c, w2)
      else if peek (link w2) then
        (match List.find (matches (ownedBy i u)) r.1 with
         | Some t => JSON c StatusOK {["todo" := V_Todo t]}
         | None =>
             JSON c StatusInternalServerError
               {["error" := V_string "Failed to fetch updated todo"]}
         end, afterRoundTrip w2)
      else
        (JSON c StatusInternalServerError
           {["error" := V_string "Failed to fetch updated todo"]},
         afterRoundTrip w2)
    else
      (JSON c StatusInternalServerError
         {["error" := V_string "Failed to update todo"]},
       afterRoundTrip (afterClock w)).
Proof.
  intros Hu Hi Hb. unfold UpdateTodo. rewrite Hu, Hi, Hb. run.
  cbn [link environ db wall uuids oids].
  destruct (peek (link w)) eqn:Hup; [|done].
  fold (collectionOf w).
  change (documents (collectionOf w)
            (mkWorld (environ w) (advance (wall w)) (uuids w) (oids w)
               (advance (link w)) (db w)))
    with (todos w).
  destruct (updateFirst _ _ (todos w)) as [l' n]. cbn [fst snd].
  destruct (Z.eqb n 0); [done|].
  cbv beta iota zeta. cbn [link].
  change (peek (link (stored l' (afterRoundTrip (afterClock w)))))
    with (peek (advance (link w))).
  destruct (peek (advance (link w))) eqn:Hup2; [|done].
  unfold documents. cbn [db]. rewrite lookup_insert_eq.
  change (default [] (Some l')) with l'.
  by destruct (List.find _ l').
Qed.

Lemma status_JSON (c : Context) (code : Z) (obj : gmap string value) :
  status (JSON c code obj) = Some code.
Proof. reflexivity. Qed.

(** ** A mutation that selects nothing *)

Lemma none_selected (i : ObjectID) (u : string) (l : list Todo) :
  Forall (fun t => ~ (ID t = i /\ UserID t = u)) l ->
  Forall (fun t => matches (ownedBy i u) t = false) l.
Proof.
  intros H. eapply Forall_impl; [exact H|].
  intros t Ht. by apply matches_ownedBy_false.
Qed.

Lemma DeleteTodo_no_match (c : Context) (w : World) (u : string)
    (i : ObjectID) :
  Get c "user_id" = Some u ->
  ObjectIDFromHex (Param c "id") = Some i ->
  Forall (fun t => ~ (ID t = i /\ UserID t = u)) (todos w) ->
  DeleteTodo c w =
    if peek (link w) then (notFound c, stored (todos w) (afterRoundTrip w))
    else
      (JSON c StatusInternalServerError
         {["error" := V_string "Failed to delete todo"]},
       afterRoundTrip w).
Proof.
  intros Hu Hi Hnone. rewrite (DeleteTodo_run c w u i Hu Hi).
  rewrite (deleteFirst_none _ _ (none_selected i u _ Hnone)). reflexivity.
Qed.

Lemma UpdateTodo_no_match (c : Context) (w : World) (u : string)
    (i : ObjectID) (req : UpdateTodoRequest) :
  Get c "user_id" = Some u ->
  ObjectIDFromHex (Param c "id") = Some i ->
  bindUpdate (Request_body c) = inr req ->
  Forall (fun t => ~ (ID t = i /\ UserID t = u)) (todos w) ->
  UpdateTodo c w =
    if peek (link w) then
      (notFound c, stored (todos w) (afterRoundTrip (afterClock w)))
    else
      (JSON c StatusInternalServerError
         {["error" := V_string "Failed to update todo"]},
       afterRoundTrip (afterClock w)).
Proof.
  intros Hu Hi Hb Hnone. rewrite (UpdateTodo_run c w u i req Hu Hi Hb).
  rewrite (updateFirst_none _ _ _ (none_selected i u _ Hnone)). reflexivity.
Qed.

(** A delete answered 200 went through and removed the first document
    that carries both the identifier and the caller's identity. *)
Lemma DeleteTodo_ok_inv (c : Context) (w : World) (u : string)
    (i : ObjectID) :
  Get c "user_id" = Some u ->
  ObjectIDFromHex (Param c "id") = Some i ->
  status (DeleteTodo c w).1 = Some StatusOK ->
  peek (link w) = true /\
  exists l1 t l2,
    todos w = l1 ++ t :: l2 /\ ID t = i /\ UserID t = u /\
    (DeleteTodo c w).2 = stored (l1 ++ l2) (afterRoundTrip w).
Proof.
  intros Hu Hi. rewrite (DeleteTodo_run c w u i Hu Hi).
  destruct (peek (link w)); [|cbn [fst]; rewrite status_JSON; discriminate]. cbn zeta. intros Hok. split; [reflexivity|].
  destruct (selected_dec (matches (ownedBy i u)) (todos w)) as [Hno|Hex].
  - rewrite (deleteFirst_none _ _ Hno) in Hok. cbn [fst snd] in Hok. rewrite Z.eqb_refl in Hok. unfold notFound in Hok. rewrite status_JSON in Hok. discriminate.
  - destruct (first_split _ _ Hex) as (l1 & t & l2 & Hl & Hl1 & Ht).
    exists l1, t, l2. apply matches_ownedBy in Ht as Htt. destruct Htt.
    rewrite Hl. rewrite (deleteFirst_split _ _ _ _ Hl1 Ht). repeat split; auto.
Qed.

(** ** C1 *)

(** C1, the claim as stated fails: an update whose body holds no JSON
    value, for a well-formed identifier that no stored todo carries, is
    answered 400, not 404. *)
Lemma C1_update_bad_body_is_400 :
  let c := requestOf "alice" "000000000000000000000001" None in
  let w := calmWorld [] in
  Get c "user_id" = Some "alice" /\
  ObjectIDFromHex (Param c "id") = Some 1%N /\
  Forall (fun t => ~ (ID t = 1%N /\ UserID t = "alice")) (todos w) /\
  status (UpdateTodo c w).1 = Some StatusBadRequest /\
  status (UpdateTodo c w).1 <> Some StatusNotFound.
Proof.
  cbv zeta. split; [reflexivity|]. split; [reflexivity|].
  split; [constructor|]. split; [reflexivity|].
  vm_compute. discriminate.
Qed.

(** C1, as amended.  For a caller [u] and a well-formed identifier [i]:
    the filter of update and delete selects exactly the todos with
    [ID = i] and [UserID = u].  When no stored todo has both, a delete,
    and an update whose body binds, answer 404 provided the database
    round trip succeeds; an update whose body does not bind answers 400;
    in every case the answer is not 200 and the stored todos are
    unchanged.  And after a delete of [i] answered 200 (the stored
    identifiers being unique), a second delete of [i], by any caller, is
    not answered 200, and is answered 404 when its round trip succeeds. *)
Theorem C1_owner_scoped_mutation (c : Context) (w : World) (u : string)
    (i : ObjectID)
    (Hu : Get c "user_id" = Some u)
    (Hi : ObjectIDFromHex (Param c "id") = Some i) :
  (forall t, matches (ownedBy i u) t = true <-> ID t = i /\ UserID t = u) /\
  (Forall (fun t => ~ (ID t = i /\ UserID t = u)) (todos w) ->
     status (DeleteTodo c w).1 <> Some StatusOK /\
     todos (DeleteTodo c w).2 = todos w /\
     (peek (link w) = true ->
        status (DeleteTodo c w).1 = Some StatusNotFound) /\
     status (UpdateTodo c w).1 <> Some StatusOK /\
     todos (UpdateTodo c w).2 = todos w /\
     (forall req, bindUpdate (Request_body c) = inr req ->
        peek (link w) = true ->
        status (UpdateTodo c w).1 = Some StatusNotFound) /\
     (forall e, bindUpdate (Request_body c) = inl e ->
        status (UpdateTodo c w).1 = Some StatusBadRequest)) /\
  (uniqueIDs (todos w) ->
   status (DeleteTodo c w).1 = Some StatusOK ->
   forall c2 u2,
     Get c2 "user_id" = Some u2 ->
     ObjectIDFromHex (Param c2 "id") = Some i ->
     status (DeleteTodo c2 (DeleteTodo c w).2).1 <> Some StatusOK /\
     (peek (link (DeleteTodo c w).2) = true ->
        status (DeleteTodo c2 (DeleteTodo c w).2).1 = Some StatusNotFound)).
Proof.
  split; [intros t; apply matches_ownedBy|]. split.
  - intros Hnone.
    rewrite (DeleteTodo_no_match c w u i Hu Hi Hnone).
    assert (status (UpdateTodo c w).1 <> Some StatusOK /\
            todos (UpdateTodo c w).2 = todos w /\
            (forall req, bindUpdate (Request_body c) = inr req ->
               peek (link w) = true ->
               status (UpdateTodo c w).1 = Some StatusNotFound) /\
            (forall e, bindUpdate (Request_body c) = inl e ->
               status (UpdateTodo c w).1 = Some StatusBadRequest)) as Hupd.
    { destruct (bindUpdate (Request_body c)) as [e|req] eqn:Hb.
      - rewrite (UpdateTodo_bad_body c w u i e Hu Hi Hb). cbn [fst snd].
        rewrite status_JSON. split; [discriminate|]. split; [reflexivity|].
        split; [intros req Hreq; discriminate Hreq | reflexivity].
      - rewrite (UpdateTodo_no_match c w u i req Hu Hi Hb Hnone).
        destruct (peek (link w)); cbn [fst snd]; unfold notFound;
          rewrite status_JSON;
          (split; [discriminate|]); (split; [try apply todos_stored; reflexivity|]);
          (split; [intros req' _ Hup; try discriminate Hup; reflexivity
                  |intros e He; discriminate He]). }
    destruct (peek (link w)); cbn [fst snd]; unfold notFound;
      rewrite status_JSON;
      (split; [discriminate|]); (split; [try apply todos_stored; reflexivity|]);
      (split; [intros Hup; try discriminate Hup; reflexivity | exact Hupd]).
  - intros Huniq Hok c2 u2 Hu2 Hi2.
    destruct (DeleteTodo_ok_inv c w u i Hu Hi Hok)
      as (_ & l1 & t & l2 & Hl & Hid & _ & ->).
    assert (Forall (fun x => ~ (ID x = i /\ UserID x = u2))
              (todos (stored (l1 ++ l2) (afterRoundTrip w)))) as Hnone.
    { rewrite todos_stored. rewrite Hl in Huniq.
      eapply Forall_impl; [exact (uniqueIDs_deleted _ _ _ Huniq)|].
      intros x Hx [Hxi _]. apply Hx. congruence. }
    rewrite (DeleteTodo_no_match c2 _ u2 i Hu2 Hi2 Hnone).
    destruct (peek (link (stored (l1 ++ l2) (afterRoundTrip w))));
      cbn [fst snd]; unfold notFound; rewrite status_JSON;
      (split; [discriminate|]); intros Hup; try discriminate Hup; reflexivity.
Qed.

Lemma C1_owner_scoped_mutation_witness :
  let c := requestOf "bob" "000000000000000000000001" (Some (JObject [])) in
  let w := calmWorld [todoA] in
  Get c "user_id" = Some "bob" /\
  ObjectIDFromHex (Param c "id") = Some 1%N /\
  status (DeleteTodo c w).1 = Some StatusNotFound /\
  status (UpdateTodo c w).1 = Some StatusNotFound /\
  todos (DeleteTodo c w).2 = [todoA].
Proof.
  cbv zeta. split; [reflexivity|]. split; [reflexivity|].
  destruct (C1_owner_scoped_mutation
              (requestOf "bob" "000000000000000000000001" (Some (JObject [])))
              (calmWorld [todoA]) "bob" 1%N eq_refl eq_refl)
    as (_ & Hnone & _).
  destruct Hnone as (_ & Hkeep & Hdel & _ & _ & Hupd & _).
  { assert (todos (calmWorld [todoA]) = [todoA]) as -> by (vm_compute; reflexivity).
    repeat constructor. intros [_ Howner]. discriminate Howner. }
  split; [apply Hdel; reflexivity|].
  split; [apply (Hupd zeroUpdate); reflexivity|].
  rewrite Hkeep. vm_compute. reflexivity.
Defined.

(** ** [GetTodos] and [CreateTodo], step by step *)

Lemma GetTodos_run (c : Context) (w : World) (u : string) :
  Get c "user_id" = Some u ->
  GetTodos c w =
    if peek (link w) then
      if peek (link (afterRoundTrip w)) then
        (JSON c StatusOK
           {["todos" :=
               V_Todos (elements
                          (List.filter (matches {["user_id" := B_String u]})
                             (todos w)))]},
         afterRoundTrip (afterRoundTrip w))
      else
        (JSON c StatusInternalServerError
           {["error" := V_string "Failed to decode todos"]},
         afterRoundTrip (afterRoundTrip w))
    else
      (JSON c StatusInternalServerError
         {["error" := V_string "Failed to fetch todos"]},
       afterRoundTrip w).
Proof.
  intros Hu. unfold GetTodos. rewrite Hu. run.
  destruct (peek (link w)) eqn:Hup; [|reflexivity].
  fold (collectionOf w). cbv beta iota zeta. cbn [link].
  change (peek (link (afterRoundTrip w))) with (peek (advance (link w))).
  change (documents (collectionOf w)
            (mkWorld (environ w) (wall w) (uuids w) (oids w)
               (advance (link w)) (db w)))
    with (todos w).
  destruct (peek (advance (link w))); [|reflexivity].
  destruct (List.filter _ (todos w)); reflexivity.
Qed.

Lemma CreateTodo_bad_body (c : Context) (w : World) (u : string)
    (e : bindError) :
  Get c "user_id" = Some u ->
  bindCreate (Request_body c) = inl e ->
  CreateTodo c w = (JSON c StatusBadRequest {["error" := V_Error e]}, w).
Proof. intros Hu Hb. unfold CreateTodo. rewrite Hu, Hb. reflexivity. Qed.

Lemma CreateTodo_run (c : Context) (w : World) (u : string)
    (req : CreateTodoRequest) :
  Get c "user_id" = Some u ->
  bindCreate (Request_body c) = inr req ->
  CreateTodo c w =
    let w3 := afterRoundTrip (afterObjectID (afterClock (afterClock w))) in
    if peek (link w) then
      if existsb (fun t => N.eqb (ID t) (peek (oids w))) (todos w) then
        (JSON c StatusInternalServerError
           {["error" := V_string "Failed to create todo"]}, w3)
      else
        (JSON c StatusCreated {["todo" := V_Todo (created u req w)]},
         stored (todos w ++ [created u req w]) w3)
    else
      (JSON c StatusInternalServerError
         {["error" := V_string "Failed to create todo"]}, w3).
Proof.
  intros Hu Hb. unfold CreateTodo. rewrite Hu, Hb. run.
  cbn [ID N.eqb NilObjectID]. cbv beta iota zeta.
  cbn [link environ db wall uuids oids UserID Title Description Completed
       CreatedAt UpdatedAt].
  destruct (peek (link w)) eqn:Hup; [|reflexivity].
  fold (collectionOf w).
  change (documents (collectionOf w)
            (mkWorld (environ w) (advance (advance (wall w))) (uuids w)
               (advance (oids w)) (advance (link w)) (db w)))
    with (todos w).
  destruct (existsb _ (todos w)); reflexivity.
Qed.

Lemma status_of_response (c : Context) (code : Z) (obj : gmap string value) :
  Writer_response c = Some (code, obj) -> status c = Some code.
Proof. unfold status. intros ->. reflexivity. Qed.

Lemma response_JSON (c : Context) (code : Z) (obj : gmap string value) :
  Writer_response (JSON c code obj) = Some (code, obj).
Proof. reflexivity. Qed.

Lemma filter_owner (u : string) (l : list Todo) :
  List.filter (matches {["user_id" := B_String u]}) l =
  List.filter (fun t => String.eqb (UserID t) u) l.
Proof.
  apply List.filter_ext. intros t.
  destruct (String.eqb (UserID t) u) eqn:He.
  - apply matches_owner. by apply String.eqb_eq.
  - destruct (matches _ t) eqn:Hm; [|reflexivity].
    apply matches_owner in Hm. apply String.eqb_neq in He. contradiction.
Qed.

Lemma filter_owner_none (u : string) (l : list Todo) :
  Forall (fun t => UserID t <> u) l ->
  List.filter (fun t => String.eqb (UserID t) u) l = [].
Proof.
  induction 1 as [|x l Hx _ IH]; [reflexivity|]. cbn.
  apply String.eqb_neq in Hx. by rewrite Hx.
Qed.

(** What a create answered 201 returned. *)
Lemma CreateTodo_created_inv (c : Context) (w : World) (u : string) (t : Todo) :
  Get c "user_id" = Some u ->
  Writer_response (CreateTodo c w).1 =
    Some (StatusCreated, {["todo" := V_Todo t]}) ->
  exists req,
    bindCreate (Request_body c) = inr req /\ t = created u req w /\
    todos (CreateTodo c w).2 = todos w ++ [t].
Proof.
  intros Hu Hr.
  destruct (bindCreate (Request_body c)) as [e|req] eqn:Hb.
  - rewrite (CreateTodo_bad_body c w u e Hu Hb) in Hr.
    apply status_of_response in Hr. discriminate Hr.
  - exists req. split; [reflexivity|].
    rewrite (CreateTodo_run c w u req Hu Hb) in Hr |- *. cbv zeta in Hr |- *.
    destruct (peek (link w)); cbn [fst snd] in Hr |- *;
      [|apply status_of_response in Hr; discriminate Hr].
    destruct (existsb _ (todos w)); cbn [fst snd] in Hr |- *;
      [apply status_of_response in Hr; discriminate Hr|].
    rewrite response_JSON in Hr.
    assert (V_Todo (created u req w) = V_Todo t) as [= <-].
    { apply (f_equal (fun r : option (Z * gmap string value) =>
                        r ≫= fun p => p.2 !! "todo")) in Hr.
      cbn [mbind option_bind snd] in Hr.
      rewrite !lookup_singleton_eq in Hr. injection Hr as Hr. by rewrite Hr. }
    split; [reflexivity|]. apply todos_stored.
Qed.

(** ** C2 *)

(** C2.  For a caller [u], when the two round trips of the listing (the
    find and the reading of its cursor) succeed, the answer is 200 with
    exactly the stored todos whose owner is [u], in stored order,
    written as an array, the empty array when there is none, and never
    as [null]; the store is unchanged.  Hence a todo of another owner,
    in particular one a create under another identity has returned,
    is not in the list. *)
Theorem C2_list_is_owner_scoped (c : Context) (w : World) (u : string)
    (Hu : Get c "user_id" = Some u)
    (Hfind : peek (link w) = true)
    (Hall : peek (link (afterRoundTrip w)) = true) :
  let listed := List.filter (fun t => String.eqb (UserID t) u) (todos w) in
  Writer_response (GetTodos c w).1 =
    Some (StatusOK, {["todos" := V_Todos (elements listed)]}) /\
  marshal (V_Todos (elements listed)) = W_array listed /\
  (Forall (fun t => UserID t <> u) (todos w) ->
     marshal (V_Todos (elements listed)) = W_array []) /\
  (forall t, t ∈ listed <-> t ∈ todos w /\ UserID t = u) /\
  todos (GetTodos c w).2 = todos w /\
  (forall cA wA a t,
     a <> u ->
     Get cA "user_id" = Some a ->
     Writer_response (CreateTodo cA wA).1 =
       Some (StatusCreated, {["todo" := V_Todo t]}) ->
     UserID t = a /\ t ∉ listed).
Proof.
  cbv zeta.
  assert (forall t,
            t ∈ List.filter (fun t => String.eqb (UserID t) u) (todos w) <->
            t ∈ todos w /\ UserID t = u) as Hmem.
  { intros t. rewrite !list_elem_of_In, List.filter_In, String.eqb_eq.
    reflexivity. }
  rewrite (GetTodos_run c w u Hu), Hfind, Hall. cbn [fst snd].
  rewrite response_JSON, filter_owner.
  split; [reflexivity|]. split; [reflexivity|]. split.
  { intros Hnone. cbn [marshal]. f_equal. by apply filter_owner_none. }
  split; [exact Hmem|]. split; [reflexivity|].
  intros cA wA a t Hne HuA Hr.
  destruct (CreateTodo_created_inv cA wA a t HuA Hr) as (req & _ & -> & _).
  split; [reflexivity|]. intros Hin. apply Hmem in Hin as [_ Hown].
  cbn in Hown. congruence.
Qed.

Lemma C2_list_is_owner_scoped_witness :
  let c := requestOf "bob" "" None in
  let w := calmWorld [todoA] in
  Get c "user_id" = Some "bob" /\
  peek (link w) = true /\
  peek (link (afterRoundTrip w)) = true /\
  Writer_response (GetTodos c w).1 =
    Some (StatusOK, {["todos" := V_Todos (elements [])]}) /\
  marshal (V_Todos (elements [])) = W_array [].
Proof.
  cbv zeta. split; [reflexivity|]. split; [reflexivity|]. split; [reflexivity|].
  destruct (C2_list_is_owner_scoped (requestOf "bob" "" None)
              (calmWorld [todoA]) "bob" eq_refl eq_refl eq_refl)
    as (Hresp & Hwire & _).
  split; [exact Hresp | exact Hwire].
Defined.

(** ** C3 *)

Lemma applySet_updateFields (now : Time) (req : UpdateTodoRequest) (t : Todo) :
  applySet (updateFields now req) t = updated now req t.
Proof.
  destruct req as [[s|] [d|] [b|]]; reflexivity.
Qed.

Lemma updated_matches (now : Time) (req : UpdateTodoRequest) (i : ObjectID)
    (u : string) (t : Todo) :
  matches (ownedBy i u) (updated now req t) = matches (ownedBy i u) t.
Proof.
  destruct (matches (ownedBy i u) t) eqn:Hm.
  - apply matches_ownedBy in Hm. by apply matches_ownedBy.
  - apply matches_ownedBy_false in Hm. by apply matches_ownedBy_false.
Qed.

(** C3, the claim as stated fails: the clock reads at the update what
    the stored updated-timestamp already is, and the timestamp does not
    increase. *)
Lemma C3_timestamp_not_increased :
  let c := requestOf "alice" "000000000000000000000001"
             (Some (JObject [("completed", JBool true)])) in
  let w := calmWorld [todoA] in
  let new := mkTodo 1%N "alice" "buy milk" "" true 100%Z 100%Z in
  todos w = [todoA] /\
  peek (wall w) = UpdatedAt todoA /\
  status (UpdateTodo c w).1 = Some StatusOK /\
  todos (UpdateTodo c w).2 = [new] /\
  ~ (UpdatedAt todoA < UpdatedAt new)%Z.
Proof.
  cbv zeta. split; [vm_compute; reflexivity|].
  split; [reflexivity|].
  split; [vm_compute; reflexivity|].
  split; [vm_compute; reflexivity|].
  cbn. lia.
Qed.

(** C3, as amended.  An update by caller [u] of identifier [i] whose body
    binds to [req], whose round trip succeeds and which matches a stored
    todo, rewrites the first stored todo [old] with that identifier and
    owner, and no other: title, description and completed take the
    value of [req] where its pointer is set and keep their prior value
    where it is nil; the updated-timestamp becomes the clock reading the
    update took, hence increases strictly exactly when that reading is
    later than the prior value; identifier, owner and created-timestamp
    are unchanged.  When the re-read succeeds too, the answer is 200
    with that todo. *)
Theorem C3_partial_update (c : Context) (w : World) (u : string)
    (i : ObjectID) (req : UpdateTodoRequest)
    (Hu : Get c "user_id" = Some u)
    (Hi : ObjectIDFromHex (Param c "id") = Some i)
    (Hb : bindUpdate (Request_body c) = inr req)
    (Hup : peek (link w) = true)
    (Hmatch : Exists (fun t => ID t = i /\ UserID t = u) (todos w)) :
  exists l1 old l2 new,
    todos w = l1 ++ old :: l2 /\
    Forall (fun t => ~ (ID t = i /\ UserID t = u)) l1 /\
    ID old = i /\ UserID old = u /\
    todos (UpdateTodo c w).2 = l1 ++ new :: l2 /\
    Title new =
      match update_Title req with Some s => s | None => Title old end /\
    Description new =
      match update_Description req with
      | Some s => s | None => Description old end /\
    Completed new =
      match update_Completed req with
      | Some b => b | None => Completed old end /\
    UpdatedAt new = peek (wall w) /\
    ((UpdatedAt old < UpdatedAt new)%Z <-> (UpdatedAt old < peek (wall w))%Z) /\
    ID new = ID old /\ UserID new = UserID old /\
    CreatedAt new = CreatedAt old /\
    (peek (link (afterRoundTrip w)) = true ->
     Writer_response (UpdateTodo c w).1 =
       Some (StatusOK, {["todo" := V_Todo new]})).
Proof.
  assert (Exists (fun t => matches (ownedBy i u) t = true) (todos w)) as Hex.
  { eapply Exists_impl; [exact Hmatch|]. intros t. apply matches_ownedBy. }
  destruct (first_split _ _ Hex) as (l1 & old & l2 & Hl & Hl1 & Hold).
  exists l1, old, l2, (updated (peek (wall w)) req old).
  apply matches_ownedBy in Hold as Hold'. destruct Hold' as [Hid Hown].
  split; [exact Hl|]. split.
  { eapply Forall_impl; [exact Hl1|]. intros t. apply matches_ownedBy_false. }
  split; [exact Hid|]. split; [exact Hown|].
  rewrite (UpdateTodo_run c w u i req Hu Hi Hb), Hup, Hl.
  rewrite (updateFirst_split _ _ _ _ _ Hl1 Hold), applySet_updateFields.
  cbv zeta. cbn [fst snd Z.eqb].
  change (peek (link (stored _ (afterRoundTrip (afterClock w)))))
    with (peek (link (afterRoundTrip w))).
  split.
  { destruct (peek (link (afterRoundTrip w))); cbn [fst snd];
      apply todos_stored. }
  repeat (split; [reflexivity|]).
  intros Hup2. rewrite Hup2. cbn [fst].
  rewrite (find_split _ l1 l2 _ Hl1); [reflexivity|].
  rewrite updated_matches. exact Hold.
Qed.

Lemma C3_partial_update_witness :
  let c := requestOf "alice" "000000000000000000000001"
             (Some (JObject [("completed", JBool true)])) in
  let w := calmWorld [mkTodo 1%N "alice" "buy milk" "" false 7%Z 7%Z] in
  Get c "user_id" = Some "alice" /\
  ObjectIDFromHex (Param c "id") = Some 1%N /\
  bindUpdate (Request_body c) = inr (mkUpdateTodoRequest None None (Some true)) /\
  peek (link w) = true /\
  Exists (fun t => ID t = 1%N /\ UserID t = "alice") (todos w) /\
  exists l1 old l2 new,
    todos w = l1 ++ old :: l2 /\
    todos (UpdateTodo c w).2 = l1 ++ new :: l2 /\
    Title new = Title old /\ Completed new = true /\
    UpdatedAt new = 100%Z.
Proof.
  cbv zeta.
  assert (Exists (fun t => ID t = 1%N /\ UserID t = "alice")
            (todos (calmWorld [mkTodo 1%N "alice" "buy milk" "" false 7%Z 7%Z])))
    as Hex.
  { assert (todos (calmWorld [mkTodo 1%N "alice" "buy milk" "" false 7%Z 7%Z])
            = [mkTodo 1%N "alice" "buy milk" "" false 7%Z 7%Z]) as ->
      by (vm_compute; reflexivity).
    left. split; reflexivity. }
  split; [reflexivity|]. split; [reflexivity|]. split; [reflexivity|].
  split; [reflexivity|]. split; [exact Hex|].
  destruct (C3_partial_update
              (requestOf "alice" "000000000000000000000001"
                 (Some (JObject [("completed", JBool true)])))
              (calmWorld [mkTodo 1%N "alice" "buy milk" "" false 7%Z 7%Z])
              "alice" 1%N (mkUpdateTodoRequest None None (Some true))
              eq_refl eq_refl eq_refl eq_refl Hex)
    as (l1 & old & l2 & new & Hl & _ & _ & _ & Hl' & Ht & _ & Hc & Hat & _).
  exists l1, old, l2, new.
  split; [exact Hl|]. split; [exact Hl'|]. split; [exact Ht|].
  split; [exact Hc | exact Hat].
Defined.

(** ** Binding a create body *)

Lemma validateCreate_title (r req : CreateTodoRequest) :
  validateCreate r = inr req -> req = r /\ create_Title req <> "".
Proof.
  unfold validateCreate. destruct (String.eqb (create_Title r) "") eqn:He;
    [discriminate|].
  intros [= <-]. split; [reflexivity|]. by apply String.eqb_neq.
Qed.

Lemma bindCreate_title_nonempty (body : option json) (req : CreateTodoRequest) :
  bindCreate body = inr req -> create_Title req <> "".
Proof.
  unfold bindCreate. destruct body as [[| | | | |members]|]; try discriminate.
  destruct (foldl storeCreate (zeroCreate, false) members) as [r bad].
  destruct bad; [discriminate|].
  intros H. by apply validateCreate_title in H as [_ H].
Qed.

Lemma storeCreate_extra (acc : CreateTodoRequest * bool) (k : string) (v : json) :
  extraField k -> storeCreate acc (k, v) = acc.
Proof.
  intros [Ht Hd]. destruct acc as [req bad]. unfold storeCreate.
  by rewrite Ht, Hd.
Qed.

(** A member under an extra key changes nothing in what is bound. *)
Lemma bindCreate_extra (l1 l2 : list (string * json)) (k : string) (v : json) :
  extraField k ->
  bindCreate (Some (JObject (l1 ++ (k, v) :: l2))) =
  bindCreate (Some (JObject (l1 ++ l2))).
Proof.
  intros Hk. unfold bindCreate.
  rewrite !foldl_app. cbn [foldl]. by rewrite storeCreate_extra.
Qed.

Lemma storeCreate_notTitle (acc : CreateTodoRequest * bool) (kv : string * json) :
  notTitle kv -> create_Title (storeCreate acc kv).1 = create_Title acc.1.
Proof.
  destruct acc as [req bad], kv as [k v]. unfold notTitle, storeCreate.
  cbn [fst]. intros ->.
  destruct (equalFold k "description"); [|reflexivity].
  destruct v; reflexivity.
Qed.

Lemma foldl_storeCreate_notTitle (l : list (string * json))
    (acc : CreateTodoRequest * bool) :
  Forall notTitle l ->
  create_Title (foldl storeCreate acc l).1 = create_Title acc.1.
Proof.
  intros Hl. revert acc. induction Hl as [|kv l Hkv _ IH]; intros acc.
  - reflexivity.
  - cbn [foldl]. rewrite IH. by apply storeCreate_notTitle.
Qed.

Lemma bindCreate_empty_title (members : list (string * json)) :
  create_Title (foldl storeCreate (zeroCreate, false) members).1 = "" ->
  exists e, bindCreate (Some (JObject members)) = inl e.
Proof.
  unfold bindCreate.
  destruct (foldl storeCreate (zeroCreate, false) members) as [r bad].
  cbn [fst]. intros Ht. destruct bad; [by eexists|].
  unfold validateCreate. rewrite Ht. by eexists.
Qed.

(** A body without a title member does not bind. *)
Lemma bindCreate_missing_title (members : list (string * json)) :
  Forall notTitle members ->
  exists e, bindCreate (Some (JObject members)) = inl e.
Proof.
  intros Hl. apply bindCreate_empty_title.
  by rewrite foldl_storeCreate_notTitle.
Qed.

(** A body whose last title member is the empty string does not bind. *)
Lemma bindCreate_blank_title (l1 l2 : list (string * json)) (k : string) :
  equalFold k "title" = true -> Forall notTitle l2 ->
  exists e, bindCreate (Some (JObject (l1 ++ (k, JString "") :: l2))) = inl e.
Proof.
  intros Hk Hl2. apply bindCreate_empty_title.
  rewrite foldl_app. cbn [foldl]. rewrite foldl_storeCreate_notTitle by done.
  destruct (foldl storeCreate (zeroCreate, false) l1) as [r bad].
  unfold storeCreate. by rewrite Hk.
Qed.

(** ** C5, C6, C7: create *)

(** C5.  A valid create request (its body binds) by caller [u], whose
    insert the database accepts (the round trip succeeds and the
    driver's new identifier is not taken), is answered 201 with a todo
    whose owner is [u], whose completed flag is false, whose identifier
    is the generated one and whose title and description are the
    request's; the stored todos gain one document, which has that
    identifier, owner, title, description and completed flag.  A member
    of the body under any key other than title and description,
    [completed] among them, changes nothing in what is bound. *)
Theorem C5_create_returns_owned_todo (c : Context) (w : World) (u : string)
    (req : CreateTodoRequest)
    (Hu : Get c "user_id" = Some u)
    (Hvalid : bindCreate (Request_body c) = inr req)
    (Hup : peek (link w) = true)
    (Hnew : Forall (fun t => ID t <> peek (oids w)) (todos w)) :
  (exists todo,
     Writer_response (CreateTodo c w).1 =
       Some (StatusCreated, {["todo" := V_Todo todo]}) /\
     UserID todo = u /\ Completed todo = false /\ ID todo = peek (oids w) /\
     Title todo = create_Title req /\
     Description todo = create_Description req /\
     exists doc,
       todos (CreateTodo c w).2 = todos w ++ [doc] /\
       sameApartFromTimes doc todo) /\
  (forall l1 l2 k v,
     extraField k ->
     bindCreate (Some (JObject (l1 ++ (k, v) :: l2))) =
     bindCreate (Some (JObject (l1 ++ l2)))) /\
  extraField "completed".
Proof.
  split; [|split; [intros l1 l2 k v; apply bindCreate_extra | by split]].
  exists (created u req w).
  rewrite (CreateTodo_run c w u req Hu Hvalid), Hup. cbv zeta.
  assert (existsb (fun t => N.eqb (ID t) (peek (oids w))) (todos w) = false)
    as ->.
  { apply existsb_ID_false. intros Hin.
    apply list_elem_of_fmap in Hin as (t & Heq & Hin).
    rewrite Forall_forall in Hnew. by apply (Hnew t Hin). }
  cbn [fst snd]. rewrite response_JSON, todos_stored.
  do 6 (split; [reflexivity|]). eexists. split; [reflexivity|].
  repeat split.
Qed.

Lemma C5_create_returns_owned_todo_witness :
  let body := Some (JObject [("title", JString "buy milk");
                             ("completed", JBool true)]) in
  let c := requestOf "alice" "" body in
  let w := calmWorld [] in
  Get c "user_id" = Some "alice" /\
  bindCreate (Request_body c) = inr (mkCreateTodoRequest "buy milk" "") /\
  peek (link w) = true /\
  Forall (fun t => ID t <> peek (oids w)) (todos w) /\
  exists todo,
    Writer_response (CreateTodo c w).1 =
      Some (StatusCreated, {["todo" := V_Todo todo]}) /\
    UserID todo = "alice" /\ Completed todo = false /\ ID todo = 1%N.
Proof.
  cbv zeta.
  assert (Forall (fun t => ID t <> peek (oids (calmWorld [])))
            (todos (calmWorld []))) as Hnew.
  { assert (todos (calmWorld []) = []) as -> by (vm_compute; reflexivity).
    constructor. }
  split; [reflexivity|]. split; [reflexivity|]. split; [reflexivity|].
  split; [exact Hnew|].
  destruct (C5_create_returns_owned_todo
              (requestOf "alice" ""
                 (Some (JObject [("title", JString "buy milk");
                                 ("completed", JBool true)])))
              (calmWorld []) "alice" (mkCreateTodoRequest "buy milk" "")
              eq_refl eq_refl eq_refl Hnew)
    as ((todo & Hr & Hown & Hdone & Hid & _) & _).
  exists todo. split; [exact Hr|]. split; [exact Hown|].
  split; [exact Hdone | exact Hid].
Defined.

(** C6, the code against the claim: [CreateTodo] calls [time.Now()] once
    for each timestamp, so a todo answered by a create carries two
    successive clock readings; on a clock that moves between the two
    calls the created- and updated-timestamp differ. *)
Theorem C6_create_reads_clock_twice :
  (forall c w u t,
     Get c "user_id" = Some u ->
     Writer_response (CreateTodo c w).1 =
       Some (StatusCreated, {["todo" := V_Todo t]}) ->
     CreatedAt t = peek (wall w) /\
     UpdatedAt t = peek (wall (afterClock w))) /\
  let c := requestOf "alice" "" (Some (JObject [("title", JString "buy milk")])) in
  let w := calmWorld [] in
  let t := mkTodo 1%N "alice" "buy milk" "" false 100%Z 101%Z in
  Writer_response (CreateTodo c w).1 =
    Some (StatusCreated, {["todo" := V_Todo t]}) /\
  todos (CreateTodo c w).2 = [t] /\
  CreatedAt t <> UpdatedAt t.
Proof.
  split.
  - intros c w u t Hu Hr.
    destruct (CreateTodo_created_inv c w u t Hu Hr) as (req & _ & -> & _).
    split; reflexivity.
  - cbv zeta. split; [vm_compute; reflexivity|].
    split; [vm_compute; reflexivity|]. cbn. discriminate.
Qed.

(** C7.  A create request by caller [u] whose body does not bind is
    answered 400 with the binding error, before anything else happens:
    the world, and so the stored collection, is as it was.  A body with
    no JSON value in it, a body object without a title member, and a
    body object whose last title member is the empty string, do not
    bind. *)
Theorem C7_invalid_create_persists_nothing (c : Context) (w : World)
    (u : string) (e : bindError)
    (Hu : Get c "user_id" = Some u)
    (Hbad : bindCreate (Request_body c) = inl e) :
  Writer_response (CreateTodo c w).1 =
    Some (StatusBadRequest, {["error" := V_Error e]}) /\
  (CreateTodo c w).2 = w /\
  todos (CreateTodo c w).2 = todos w /\
  bindCreate None = inl ErrSyntax /\
  (forall members,
     Forall notTitle members ->
     exists e', bindCreate (Some (JObject members)) = inl e') /\
  (forall l1 l2 k,
     equalFold k "title" = true -> Forall notTitle l2 ->
     exists e', bindCreate (Some (JObject (l1 ++ (k, JString "") :: l2))) = inl e').
Proof.
  rewrite (CreateTodo_bad_body c w u e Hu Hbad). cbn [fst snd].
  split; [reflexivity|]. split; [reflexivity|]. split; [reflexivity|].
  split; [reflexivity|]. split.
  - apply bindCreate_missing_title.
  - intros l1 l2 k. apply bindCreate_blank_title.
Qed.

Lemma C7_invalid_create_persists_nothing_witness :
  let c := requestOf "alice" "" (Some (JObject [("description", JString "x")])) in
  let w := calmWorld [todoA] in
  Get c "user_id" = Some "alice" /\
  bindCreate (Request_body c) = inl ErrRequired /\
  status (CreateTodo c w).1 = Some StatusBadRequest /\
  (CreateTodo c w).2 = w.
Proof.
  cbv zeta. split; [reflexivity|]. split; [reflexivity|].
  destruct (C7_invalid_create_persists_nothing
              (requestOf "alice" "" (Some (JObject [("description", JString "x")])))
              (calmWorld [todoA]) "alice" ErrRequired eq_refl eq_refl)
    as (Hr & Hw & _).
  split; [exact (status_of_response _ _ _ Hr) | exact Hw].
Defined.

(** ** C4: titles *)

Lemma CreateTodo_titled (c : Context) (w : World) :
  titled (todos w) -> titled (todos (CreateTodo c w).2).
Proof.
  intros Hw. destruct (Get c "user_id") as [u|] eqn:Hu.
  - destruct (bindCreate (Request_body c)) as [e|req] eqn:Hb.
    + by rewrite (CreateTodo_bad_body c w u e Hu Hb).
    + rewrite (CreateTodo_run c w u req Hu Hb). cbv zeta.
      destruct (peek (link w)); [|exact Hw].
      destruct (existsb _ (todos w)); [exact Hw|].
      cbn [snd]. rewrite todos_stored. apply Forall_app. split; [exact Hw|].
      constructor; [|constructor].
      exact (bindCreate_title_nonempty _ _ Hb).
  - unfold CreateTodo. rewrite Hu. exact Hw.
Qed.

(** C4, the code against the claim: creates keep every stored title
    non-empty, but an update whose body carries [title] as the empty
    string is applied as it is.  From an empty store, a create followed
    by such an update by the same caller reaches a world with a stored
    todo whose title is empty. *)
Theorem C4_update_stores_empty_title :
  (forall c w, titled (todos w) -> titled (todos (CreateTodo c w).2)) /\
  let cookies := [("todo_user_id", "alice")] in
  let r1 := ServeHTTP POST_todos cookies
              (Some (JObject [("title", JString "buy milk")])) (calmWorld []) in
  let r2 := ServeHTTP (PUT_todos_id "000000000000000000000001") cookies
              (Some (JObject [("title", JString "")])) r1.2 in
  status r1.1 = Some StatusCreated /\
  todos r1.2 = [mkTodo 1%N "alice" "buy milk" "" false 100%Z 101%Z] /\
  status r2.1 = Some StatusOK /\
  todos r2.2 = [mkTodo 1%N "alice" "" "" false 100%Z 102%Z] /\
  reachable r2.2 /\
  ~ titled (todos r2.2).
Proof.
  split; [exact CreateTodo_titled|]. cbv zeta.
  split; [vm_compute; reflexivity|]. split; [vm_compute; reflexivity|].
  split; [vm_compute; reflexivity|].
  assert (todos
            (ServeHTTP (PUT_todos_id "000000000000000000000001")
               [("todo_user_id", "alice")]
               (Some (JObject [("title", JString "")]))
               (ServeHTTP POST_todos [("todo_user_id", "alice")]
                  (Some (JObject [("title", JString "buy milk")]))
                  (calmWorld [])).2).2
          = [mkTodo 1%N "alice" "" "" false 100%Z 102%Z]) as ->
    by (vm_compute; reflexivity).
  split; [reflexivity|].
  split; [do 2 apply reachable_serve; apply reachable_start;
          vm_compute; reflexivity|].
  intros Ht. apply Forall_cons in Ht as [Ht _]. by apply Ht.
Qed.

(** ** The identity middleware, step by step *)

Lemma AuthMiddleware_returning (next : HandlerFunc) (c : Context) (w : World)
    (v : string) :
  firstCookie (cookieNameOf w) (Request_cookies c) = Some v -> v <> "" ->
  AuthMiddleware next c w = next (Set_ c "user_id" v) w.
Proof.
  intros Hc Hv. unfold AuthMiddleware. run. fold (cookieNameOf w).
  unfold Cookie_. rewrite Hc. cbn [orb].
  apply String.eqb_neq in Hv. rewrite Hv. reflexivity.
Qed.

Lemma AuthMiddleware_minting (next : HandlerFunc) (c : Context) (w : World) :
  firstCookie (cookieNameOf w) (Request_cookies c) = None \/
  firstCookie (cookieNameOf w) (Request_cookies c) = Some "" ->
  AuthMiddleware next c w =
    next (Set_ (SetCookie c (cookieNameOf w) (peek (uuids w)) 86400 "/" ""
                  false true)
            "user_id" (peek (uuids w)))
      (afterUUID w).
Proof.
  intros Hc. unfold AuthMiddleware. run. fold (cookieNameOf w).
  unfold Cookie_. destruct Hc as [-> | ->]; reflexivity.
Qed.

(** Whatever the request, the middleware hands the rest of the chain a
    context that differs from the one it got in the identity key, and
    in one more cookie when it mints. *)
Lemma AuthMiddleware_proceeds (next : HandlerFunc) (c : Context) (w : World) :
  exists c' w' u,
    AuthMiddleware next c w = next c' w' /\
    Get c' "user_id" = Some u /\
    Writer_response c' = Writer_response c /\
    Request_cookies c' = Request_cookies c /\
    Request_body c' = Request_body c /\
    Params c' = Params c /\
    todos w' = todos w.
Proof.
  destruct (firstCookie (cookieNameOf w) (Request_cookies c)) as [v|] eqn:Hc.
  - destruct (decide (v = "")) as [->|Hv].
    + eexists _, _, _. split; [apply AuthMiddleware_minting; by right|].
      split; [apply lookup_insert_eq|].
      unfold SetCookie. destruct (isCookieNameValid _); repeat split.
    + eexists _, _, _. split; [by apply AuthMiddleware_returning|].
      split; [apply lookup_insert_eq|]. repeat split.
  - eexists _, _, _. split; [apply AuthMiddleware_minting; by left|].
    split; [apply lookup_insert_eq|].
    unfold SetCookie. destruct (isCookieNameValid _); repeat split.
Qed.

(** ** What a handler writes *)

(** Every handler of the route table answers with one [c.JSON] on the
    context it got, and with a status other than 401 once the identity
    key is set. *)
Lemma route_answers (r : Route) (c : Context) (w : World) :
  r <> NoRoute ->
  exists code obj,
    (handlerOf r c w).1 = JSON c code obj /\
    (is_Some (Get c "user_id") -> code <> StatusUnauthorized).
Proof.
  intros Hr. destruct r as [| |id|id| |]; cbn [handlerOf].
  - destruct (Get c "user_id") as [u|] eqn:Hu.
    + rewrite (GetTodos_run c w u Hu).
      destruct (peek (link w)); [destruct (peek (link (afterRoundTrip w)))|];
        eexists _, _; (split; [reflexivity | intros _; discriminate]).
    + unfold GetTodos. rewrite Hu. eexists _, _.
      split; [reflexivity | intros [u' Hu']; discriminate Hu'].
  - destruct (Get c "user_id") as [u|] eqn:Hu.
    + destruct (bindCreate (Request_body c)) as [e|req] eqn:Hb.
      * rewrite (CreateTodo_bad_body c w u e Hu Hb). eexists _, _.
        split; [reflexivity | intros _; discriminate].
      * rewrite (CreateTodo_run c w u req Hu Hb). cbv zeta.
        destruct (peek (link w)); [destruct (existsb _ (todos w))|];
          eexists _, _; (split; [reflexivity | intros _; discriminate]).
    + unfold CreateTodo. rewrite Hu. eexists _, _.
      split; [reflexivity | intros [u' Hu']; discriminate Hu'].
  - destruct (Get c "user_id") as [u|] eqn:Hu.
    + destruct (ObjectIDFromHex (Param c "id")) as [i|] eqn:Hi.
      * destruct (bindUpdate (Request_body c)) as [e|req] eqn:Hb.
        -- rewrite (UpdateTodo_bad_body c w u i e Hu Hi Hb). eexists _, _.
           split; [reflexivity | intros _; discriminate].
        -- rewrite (UpdateTodo_run c w u i req Hu Hi Hb). cbv zeta.
           destruct (peek (link w));
             [destruct (Z.eqb _ 0);
                [|destruct (peek (link _)); [destruct (List.find _ _)|]]|];
             eexists _, _; (split; [reflexivity | intros _; discriminate]).
      * unfold UpdateTodo. rewrite Hu, Hi. eexists _, _.
        split; [reflexivity | intros _; discriminate].
    + unfold UpdateTodo. rewrite Hu. eexists _, _.
      split; [reflexivity | intros [u' Hu']; discriminate Hu'].
  - destruct (Get c "user_id") as [u|] eqn:Hu.
    + destruct (ObjectIDFromHex (Param c "id")) as [i|] eqn:Hi.
      * rewrite (DeleteTodo_run c w u i Hu Hi). cbv zeta.
        destruct (peek (link w)); [destruct (Z.eqb _ 0)|];
          eexists _, _; (split; [reflexivity | intros _; discriminate]).
      * unfold DeleteTodo. rewrite Hu, Hi. eexists _, _.
        split; [reflexivity | intros _; discriminate].
    + unfold DeleteTodo. rewrite Hu. eexists _, _.
      split; [reflexivity | intros [u' Hu']; discriminate Hu'].
  - eexists _, _. split; [reflexivity | intros _; discriminate].
  - contradiction.
Qed.

(** Whatever the route, matched or not, the answer has a status, which
    is not 401 once the identity key is set, and the handler adds no
    cookie. *)
Lemma handler_answers (r : Route) (c : Context) (w : World) :
  exists code,
    status (handlerOf r c w).1 = Some code /\
    (is_Some (Get c "user_id") -> code <> StatusUnauthorized) /\
    Writer_cookies (handlerOf r c w).1 = Writer_cookies c.
Proof.
  assert (r = NoRoute \/ r <> NoRoute) as [->|Hr]
    by (destruct r; (by left) || (by right)).
  - exists StatusNotFound. split; [reflexivity|].
    split; [intros _; discriminate | reflexivity].
  - destruct (route_answers r c w Hr) as (code & obj & -> & Hcode).
    exists code. split; [reflexivity|]. split; [exact Hcode | reflexivity].
Qed.

(** No handler changes the settings or draws a token. *)
Lemma handler_keeps_settings (r : Route) (c : Context) (w : World) :
  environ (handlerOf r c w).2 = environ w /\
  uuids (handlerOf r c w).2 = uuids w.
Proof.
  destruct r as [| |id|id| |]; cbn [handlerOf]; [| | | |by split..].
  - destruct (Get c "user_id") as [u|] eqn:Hu.
    + rewrite (GetTodos_run c w u Hu).
      destruct (peek (link w)); [destruct (peek (link (afterRoundTrip w)))|];
        split; reflexivity.
    + unfold GetTodos. rewrite Hu. split; reflexivity.
  - destruct (Get c "user_id") as [u|] eqn:Hu.
    + destruct (bindCreate (Request_body c)) as [e|req] eqn:Hb.
      * rewrite (CreateTodo_bad_body c w u e Hu Hb). split; reflexivity.
      * rewrite (CreateTodo_run c w u req Hu Hb). cbv zeta.
        destruct (peek (link w)); [destruct (existsb _ (todos w))|];
          split; reflexivity.
    + unfold CreateTodo. rewrite Hu. split; reflexivity.
  - destruct (Get c "user_id") as [u|] eqn:Hu.
    + destruct (ObjectIDFromHex (Param c "id")) as [i|] eqn:Hi.
      * destruct (bindUpdate (Request_body c)) as [e|req] eqn:Hb.
        -- rewrite (UpdateTodo_bad_body c w u i e Hu Hi Hb). split; reflexivity.
        -- rewrite (UpdateTodo_run c w u i req Hu Hi Hb). cbv zeta.
           destruct (peek (link w));
             [destruct (Z.eqb _ 0); [|destruct (peek (link _))]|];
             split; reflexivity.
      * unfold UpdateTodo. rewrite Hu, Hi. split; reflexivity.
    + unfold UpdateTodo. rewrite Hu. split; reflexivity.
  - destruct (Get c "user_id") as [u|] eqn:Hu.
    + destruct (ObjectIDFromHex (Param c "id")) as [i|] eqn:Hi.
      * rewrite (DeleteTodo_run c w u i Hu Hi). cbv zeta.
        destruct (peek (link w)); split; reflexivity.
      * unfold DeleteTodo. rewrite Hu, Hi. split; reflexivity.
    + unfold DeleteTodo. rewrite Hu. split; reflexivity.
Qed.

(** ** Cookies under a valid name *)

Lemma firstCookie_valid (name : string) (l : list (string * string))
    (v : string) :
  firstCookie name l = Some v -> isCookieNameValid name = true.
Proof.
  unfold firstCookie. destruct (isCookieNameValid name); [done | discriminate].
Qed.

Lemma SetCookie_valid (c : Context) (name v : string) (age : Z)
    (path domain : string) (secure httpOnly : bool) :
  isCookieNameValid name = true ->
  Writer_cookies (SetCookie c name v age path domain secure httpOnly) =
    Writer_cookies c ++
      [mkCookie name v age (if String.eqb path "" then "/" else path) domain
         secure httpOnly].
Proof. intros Hname. unfold SetCookie. rewrite Hname. reflexivity. Qed.

Lemma SetCookie_invalid (c : Context) (name v : string) (age : Z)
    (path domain : string) (secure httpOnly : bool) :
  isCookieNameValid name = false ->
  SetCookie c name v age path domain secure httpOnly = c.
Proof. intros Hname. unfold SetCookie. rewrite Hname. reflexivity. Qed.


(** ** A database that does not answer *)

(** When the first round trip of a todo handler fails, the answer is 500
    and the stored todos are as they were. *)
Lemma handler_internal_error (r : Route) (c : Context) (w : World)
    (u : string) (i : ObjectID) (reqC : CreateTodoRequest)
    (reqU : UpdateTodoRequest) :
  Get c "user_id" = Some u ->
  ObjectIDFromHex (Param c "id") = Some i ->
  bindCreate (Request_body c) = inr reqC ->
  bindUpdate (Request_body c) = inr reqU ->
  peek (link w) = false ->
  r <> GET_health -> r <> NoRoute ->
  status (handlerOf r c w).1 = Some StatusInternalServerError /\
  todos (handlerOf r c w).2 = todos w.
Proof.
  intros Hu Hi HbC HbU Hdown Hh Hn.
  destruct r as [| |id|id| |]; cbn [handlerOf]; try contradiction.
  - rewrite (GetTodos_run c w u Hu), Hdown. split; reflexivity.
  - rewrite (CreateTodo_run c w u reqC Hu HbC), Hdown. split; reflexivity.
  - rewrite (UpdateTodo_run c w u i reqU Hu Hi HbU), Hdown. split; reflexivity.
  - rewrite (DeleteTodo_run c w u i Hu Hi), Hdown. split; reflexivity.
Qed.

(** ** The unique index is kept by every request *)

Lemma handler_uniqueIDs (r : Route) (c : Context) (w : World) :
  uniqueIDs (todos w) -> uniqueIDs (todos (handlerOf r c w).2).
Proof.
  intros Hw. destruct r as [| |id|id| |]; cbn [handlerOf]; [| | | |exact Hw..].
  - destruct (Get c "user_id") as [u|] eqn:Hu.
    + rewrite (GetTodos_run c w u Hu).
      destruct (peek (link w)); [destruct (peek (link (afterRoundTrip w)))|];
        exact Hw.
    + unfold GetTodos. rewrite Hu. exact Hw.
  - destruct (Get c "user_id") as [u|] eqn:Hu.
    + destruct (bindCreate (Request_body c)) as [e|req] eqn:Hb.
      * rewrite (CreateTodo_bad_body c w u e Hu Hb). exact Hw.
      * rewrite (CreateTodo_run c w u req Hu Hb). cbv zeta.
        destruct (peek (link w)); [|exact Hw].
        destruct (existsb _ (todos w)) eqn:Hfresh; [exact Hw|].
        cbn [snd]. rewrite todos_stored. apply uniqueIDs_snoc; [exact Hw|].
        by apply existsb_ID_false.
    + unfold CreateTodo. rewrite Hu. exact Hw.
  - destruct (Get c "user_id") as [u|] eqn:Hu.
    + destruct (ObjectIDFromHex (Param c "id")) as [i|] eqn:Hi.
      * destruct (bindUpdate (Request_body c)) as [e|req] eqn:Hb.
        -- rewrite (UpdateTodo_bad_body c w u i e Hu Hi Hb). exact Hw.
        -- rewrite (UpdateTodo_run c w u i req Hu Hi Hb). cbv zeta.
           destruct (peek (link w)); [|exact Hw].
           assert (uniqueIDs
                     (updateFirst (matches (ownedBy i u))
                        (applySet (updateFields (peek (wall w)) req))
                        (todos w)).1) as Hkept
             by (apply uniqueIDs_updateFirst; [reflexivity | exact Hw]).
           destruct (Z.eqb _ 0); [|destruct (peek (link _))];
             cbn [snd]; rewrite ?todos_afterRoundTrip, todos_stored;
             exact Hkept.
      * unfold UpdateTodo. rewrite Hu, Hi. exact Hw.
    + unfold UpdateTodo. rewrite Hu. exact Hw.
  - destruct (Get c "user_id") as [u|] eqn:Hu.
    + destruct (ObjectIDFromHex (Param c "id")) as [i|] eqn:Hi.
      * rewrite (DeleteTodo_run c w u i Hu Hi). cbv zeta.
        destruct (peek (link w)); [|exact Hw].
        cbn [snd]. rewrite todos_stored. by apply uniqueIDs_deleteFirst.
      * unfold DeleteTodo. rewrite Hu, Hi. exact Hw.
    + unfold DeleteTodo. rewrite Hu. exact Hw.
Qed.

Lemma ServeHTTP_uniqueIDs (r : Route) (cookies : list (string * string))
    (body : option json) (w : World) :
  uniqueIDs (todos w) -> uniqueIDs (todos (ServeHTTP r cookies body w).2).
Proof.
  intros Hw. unfold ServeHTTP.
  destruct (AuthMiddleware_proceeds (handlerOf r)
              (mkContext cookies body (paramsOf r) ∅ [] None) w)
    as (c1 & w1 & u1 & -> & _ & _ & _ & _ & _ & Hsame).
  apply handler_uniqueIDs. by rewrite Hsame.
Qed.

(** The stored identifiers are unique in every world the server reaches. *)
Lemma reachable_uniqueIDs (w : World) : reachable w -> uniqueIDs (todos w).
Proof.
  induction 1 as [w Hempty|w r cookies body _ IH].
  - rewrite Hempty. apply NoDup_nil_2.
  - by apply ServeHTTP_uniqueIDs.
Qed.

(** ** C8, C9, C10: the identity middleware *)




(** C9.  Every request the engine serves goes through the identity
    middleware, which sets "user_id" in the context before the route's
    handler runs; so no route, and in particular none of the four todo
    handlers, answers 401 behind the middleware. *)
Theorem C9_unauthenticated_unreachable (r : Route)
    (cookies : list (string * string)) (body : option json) (w : World) :
  (exists c' w' u,
     ServeHTTP r cookies body w = handlerOf r c' w' /\
     Get c' "user_id" = Some u) /\
  status (ServeHTTP r cookies body w).1 <> Some StatusUnauthorized /\
  (forall c0 w0,
     status (AuthMiddleware GetTodos c0 w0).1 <> Some StatusUnauthorized /\
     status (AuthMiddleware CreateTodo c0 w0).1 <> Some StatusUnauthorized /\
     status (AuthMiddleware UpdateTodo c0 w0).1 <> Some StatusUnauthorized /\
     status (AuthMiddleware DeleteTodo c0 w0).1 <> Some StatusUnauthorized).
Proof.
  assert (forall r0 c0 w0,
            status (AuthMiddleware (handlerOf r0) c0 w0).1
            <> Some StatusUnauthorized) as Hall.
  { intros r0 c0 w0.
    destruct (AuthMiddleware_proceeds (handlerOf r0) c0 w0)
      as (c1 & w1 & u1 & -> & Hu1 & _).
    destruct (handler_answers r0 c1 w1) as (code & -> & Hcode & _).
    intros [= Heq]. apply Hcode; [by exists u1|exact Heq]. }
  split; [|split].
  - unfold ServeHTTP.
    destruct (AuthMiddleware_proceeds (handlerOf r)
                (mkContext cookies body (paramsOf r) ∅ [] None) w)
      as (c1 & w1 & u1 & H1 & Hu1 & _).
    by exists c1, w1, u1.
  - apply Hall.
  - intros c0 w0. repeat split.
    + exact (Hall GET_todos c0 w0).
    + exact (Hall POST_todos c0 w0).
    + exact (Hall (PUT_todos_id "") c0 w0).
    + exact (Hall (DELETE_todos_id "") c0 w0).
Qed.

(** C10.  For a request that presents a non-empty identity cookie, the
    middleware draws no token and adds no [Set-Cookie] header: it runs
    the rest of the chain on the same context and world with the
    presented value, unchanged, under "user_id".  No handler of the
    route table adds a cookie either, so the response to such a request
    carries no [Set-Cookie] header. *)
Theorem C10_returning_caller_untouched (next : HandlerFunc) (c : Context)
    (w : World) (v : string)
    (Hcookie : firstCookie (cookieNameOf w) (Request_cookies c) = Some v)
    (Hv : v <> "") :
  AuthMiddleware next c w = next (Set_ c "user_id" v) w /\
  Writer_cookies (Set_ c "user_id" v) = Writer_cookies c /\
  Get (Set_ c "user_id" v) "user_id" = Some v /\
  (forall r, Writer_cookies (AuthMiddleware (handlerOf r) c w).1
             = Writer_cookies c).
Proof.
  split; [by apply AuthMiddleware_returning|]. split; [reflexivity|].
  split; [apply lookup_insert_eq|].
  intros r. rewrite (AuthMiddleware_returning _ c w v Hcookie Hv).
  destruct (handler_answers r (Set_ c "user_id" v) w) as (code & _ & _ & ->).
  reflexivity.
Qed.

Lemma C10_returning_caller_untouched_witness :
  let c := mkContext [("todo_user_id", "alice")] None ∅ ∅ [] None in
  let w := calmWorld [todoA] in
  firstCookie (cookieNameOf w) (Request_cookies c) = Some "alice" /\
  "alice" <> "" /\
  Writer_cookies (AuthMiddleware GetTodos c w).1 = [] /\
  AuthMiddleware GetTodos c w = GetTodos (Set_ c "user_id" "alice") w.
Proof.
  cbv zeta.
  assert ("alice" <> "") as Hne by discriminate.
  destruct (C10_returning_caller_untouched GetTodos
              (mkContext [("todo_user_id", "alice")] None ∅ ∅ [] None)
              (calmWorld [todoA]) "alice" eq_refl Hne)
    as (Hrun & _ & _ & Hcookies).
  split; [reflexivity|]. split; [exact Hne|].
  split; [exact (Hcookies GET_todos) | exact Hrun].
Defined.

(** * Further properties of the handlers, the middleware and the routes *)

(** ** Identifiers in the path *)

Lemma hexDecode_None (s : string) (acc : N) :
  hexDecode s acc = None <-> Exists notHex (list_ascii_of_string s).
Proof.
  revert acc. induction s as [|a s IH]; intros acc; cbn.
  - split; [discriminate|]. intros H. by apply Exists_nil in H.
  - rewrite Exists_cons. unfold notHex at 1.
    destruct (fromHexChar a) as [d|]; [|by split; [left|]].
    rewrite IH. split; [by right|]. by intros [|].
Qed.

Lemma ObjectIDFromHex_None (s : string) :
  ObjectIDFromHex s = None <->
  String.length s <> 24 \/ Exists notHex (list_ascii_of_string s).
Proof.
  unfold ObjectIDFromHex. destruct (Nat.eqb (String.length s) 24) eqn:Hlen.
  - apply Nat.eqb_eq in Hlen. rewrite hexDecode_None. split; [by right|].
    by intros [|].
  - apply Nat.eqb_neq in Hlen. split; [by left|done].
Qed.

(** X1.  With the caller's identity in place, an update or a delete
    whose path identifier is not exactly 24 hexadecimal digits is
    answered 400 "Invalid todo ID" before the body is looked at and
    before the clock or the database is touched: the world is as it
    was. *)
Theorem malformed_id_is_rejected_first (c : Context) (w : World) (u : string)
    (Hu : Get c "user_id" = Some u)
    (Hid : String.length (Param c "id") <> 24 \/
           Exists notHex (list_ascii_of_string (Param c "id"))) :
  UpdateTodo c w =
    (JSON c StatusBadRequest {["error" := V_string "Invalid todo ID"]}, w) /\
  DeleteTodo c w =
    (JSON c StatusBadRequest {["error" := V_string "Invalid todo ID"]}, w).
Proof.
  apply ObjectIDFromHex_None in Hid.
  unfold UpdateTodo, DeleteTodo. rewrite Hu, Hid. split; reflexivity.
Qed.

Lemma malformed_id_is_rejected_first_witness :
  let c := requestOf "alice" "not-an-object-id" None in
  let w := calmWorld [todoA] in
  Get c "user_id" = Some "alice" /\
  (String.length (Param c "id") <> 24 \/
   Exists notHex (list_ascii_of_string (Param c "id"))) /\
  status (UpdateTodo c w).1 = Some StatusBadRequest /\
  (DeleteTodo c w).2 = w.
Proof.
  cbv zeta.
  assert (String.length (Param (requestOf "alice" "not-an-object-id" None) "id")
          <> 24 \/
          Exists notHex
            (list_ascii_of_string
               (Param (requestOf "alice" "not-an-object-id" None) "id")))
    as Hid by (left; vm_compute; discriminate).
  destruct (malformed_id_is_rejected_first
              (requestOf "alice" "not-an-object-id" None) (calmWorld [todoA])
              "alice" eq_refl Hid) as [Hupd Hdel].
  split; [reflexivity|]. split; [exact Hid|].
  rewrite Hupd, Hdel. split; reflexivity.
Defined.

(** ** Deleting *)

(** X2.  A delete by caller [u] of identifier [i] that a stored todo of
    [u] carries, when the round trip succeeds, is answered 200 with the
    message "Todo deleted successfully" and removes the first such todo
    and nothing else: the todos before and after it stay, in order.
    With unique stored identifiers no todo with identifier [i] is left. *)
Theorem delete_removes_the_owned_todo (c : Context) (w : World) (u : string)
    (i : ObjectID)
    (Hu : Get c "user_id" = Some u)
    (Hi : ObjectIDFromHex (Param c "id") = Some i)
    (Hup : peek (link w) = true)
    (Hmatch : Exists (fun t => ID t = i /\ UserID t = u) (todos w)) :
  exists l1 t l2,
    todos w = l1 ++ t :: l2 /\
    Forall (fun x => ~ (ID x = i /\ UserID x = u)) l1 /\
    ID t = i /\ UserID t = u /\
    todos (DeleteTodo c w).2 = l1 ++ l2 /\
    Writer_response (DeleteTodo c w).1 =
      Some (StatusOK, {["message" := V_string "Todo deleted successfully"]}) /\
    (uniqueIDs (todos w) ->
     Forall (fun x => ID x <> i) (todos (DeleteTodo c w).2)).
Proof.
  assert (Exists (fun t => matches (ownedBy i u) t = true) (todos w)) as Hex.
  { eapply Exists_impl; [exact Hmatch|]. intros t. apply matches_ownedBy. }
  destruct (first_split _ _ Hex) as (l1 & t & l2 & Hl & Hl1 & Ht).
  exists l1, t, l2.
  apply matches_ownedBy in Ht as Ht'. destruct Ht' as [Hid Hown].
  split; [exact Hl|]. split.
  { eapply Forall_impl; [exact Hl1|]. intros x. apply matches_ownedBy_false. }
  split; [exact Hid|]. split; [exact Hown|].
  rewrite (DeleteTodo_run c w u i Hu Hi), Hup, Hl.
  rewrite (deleteFirst_split _ _ _ _ Hl1 Ht). cbv zeta. cbn [fst snd Z.eqb].
  rewrite todos_stored. split; [reflexivity|]. split; [reflexivity|].
  intros Huniq. rewrite <- Hid. by apply uniqueIDs_deleted.
Qed.

Lemma delete_removes_the_owned_todo_witness :
  let c := requestOf "alice" "000000000000000000000001" None in
  let w := calmWorld [todoA] in
  Get c "user_id" = Some "alice" /\
  ObjectIDFromHex (Param c "id") = Some 1%N /\
  peek (link w) = true /\
  Exists (fun t => ID t = 1%N /\ UserID t = "alice") (todos w) /\
  exists l1 t l2,
    todos w = l1 ++ t :: l2 /\ todos (DeleteTodo c w).2 = l1 ++ l2 /\
    status (DeleteTodo c w).1 = Some StatusOK.
Proof.
  cbv zeta.
  assert (Exists (fun t => ID t = 1%N /\ UserID t = "alice")
            (todos (calmWorld [todoA]))) as Hex.
  { assert (todos (calmWorld [todoA]) = [todoA]) as ->
      by (vm_compute; reflexivity).
    left. split; reflexivity. }
  split; [reflexivity|]. split; [reflexivity|]. split; [reflexivity|].
  split; [exact Hex|].
  destruct (delete_removes_the_owned_todo
              (requestOf "alice" "000000000000000000000001" None)
              (calmWorld [todoA]) "alice" 1%N eq_refl eq_refl eq_refl Hex)
    as (l1 & t & l2 & Hl & _ & _ & _ & Hl' & Hr & _).
  exists l1, t, l2. split; [exact Hl|]. split; [exact Hl'|].
  exact (status_of_response _ _ _ Hr).
Defined.

(** ** Updating *)

(** X3.  [UpdateTodo] writes and then reads back in two round trips.
    When the update goes through on a stored todo of the caller and the
    reading back fails, the answer is 500 "Failed to fetch updated todo"
    although the update is stored. *)
Theorem update_may_fail_after_it_is_stored (c : Context) (w : World)
    (u : string) (i : ObjectID) (req : UpdateTodoRequest)
    (Hu : Get c "user_id" = Some u)
    (Hi : ObjectIDFromHex (Param c "id") = Some i)
    (Hb : bindUpdate (Request_body c) = inr req)
    (Hup : peek (link w) = true)
    (Hdown : peek (link (afterRoundTrip w)) = false)
    (Hmatch : Exists (fun t => ID t = i /\ UserID t = u) (todos w)) :
  Writer_response (UpdateTodo c w).1 =
    Some (StatusInternalServerError,
          {["error" := V_string "Failed to fetch updated todo"]}) /\
  exists l1 old l2,
    todos w = l1 ++ old :: l2 /\
    Forall (fun t => ~ (ID t = i /\ UserID t = u)) l1 /\
    ID old = i /\ UserID old = u /\
    todos (UpdateTodo c w).2 = l1 ++ updated (peek (wall w)) req old :: l2.
Proof.
  assert (Exists (fun t => matches (ownedBy i u) t = true) (todos w)) as Hex.
  { eapply Exists_impl; [exact Hmatch|]. intros t. apply matches_ownedBy. }
  destruct (first_split _ _ Hex) as (l1 & old & l2 & Hl & Hl1 & Hold).
  apply matches_ownedBy in Hold as Hold'. destruct Hold' as [Hid Hown].
  rewrite (UpdateTodo_run c w u i req Hu Hi Hb), Hup, Hl.
  rewrite (updateFirst_split _ _ _ _ _ Hl1 Hold), applySet_updateFields.
  cbv zeta. cbn [fst snd Z.eqb].
  change (peek (link (stored _ (afterRoundTrip (afterClock w)))))
    with (peek (link (afterRoundTrip w))).
  rewrite Hdown. cbn [fst snd]. split; [reflexivity|].
  exists l1, old, l2. split; [reflexivity|]. split.
  { eapply Forall_impl; [exact Hl1|]. intros t. apply matches_ownedBy_false. }
  split; [exact Hid|]. split; [exact Hown|]. apply todos_stored.
Qed.

(** A world like [calmWorld] whose database answers the first round
    trip only. *)
Lemma update_may_fail_after_it_is_stored_witness :
  let c := requestOf "alice" "000000000000000000000001"
             (Some (JObject [("completed", JBool true)])) in
  let w := mkWorld (fun _ => "")
             (mkSource (fun n => (100 + Z.of_nat n)%Z) 0)
             (mkSource (fun _ => "uuid-a") 0)
             (mkSource (fun n => (1 + N.of_nat n)%N) 0)
             (mkSource (fun n => Nat.eqb n 0) 0)
             {["todos" := [todoA]]} in
  Get c "user_id" = Some "alice" /\
  ObjectIDFromHex (Param c "id") = Some 1%N /\
  bindUpdate (Request_body c) = inr (mkUpdateTodoRequest None None (Some true)) /\
  peek (link w) = true /\
  peek (link (afterRoundTrip w)) = false /\
  Exists (fun t => ID t = 1%N /\ UserID t = "alice") (todos w) /\
  status (UpdateTodo c w).1 = Some StatusInternalServerError /\
  todos (UpdateTodo c w).2 = [mkTodo 1%N "alice" "buy milk" "" true 100%Z 100%Z].
Proof.
  cbv zeta.
  set (w := mkWorld (fun _ => "")
             (mkSource (fun n => (100 + Z.of_nat n)%Z) 0)
             (mkSource (fun _ => "uuid-a") 0)
             (mkSource (fun n => (1 + N.of_nat n)%N) 0)
             (mkSource (fun n => Nat.eqb n 0) 0)
             {["todos" := [todoA]]}).
  assert (Exists (fun t => ID t = 1%N /\ UserID t = "alice") (todos w)) as Hex.
  { assert (todos w = [todoA]) as -> by (vm_compute; reflexivity).
    left. split; reflexivity. }
  split; [reflexivity|]. split; [reflexivity|]. split; [reflexivity|].
  split; [reflexivity|]. split; [reflexivity|]. split; [exact Hex|].
  destruct (update_may_fail_after_it_is_stored
              (requestOf "alice" "000000000000000000000001"
                 (Some (JObject [("completed", JBool true)])))
              w "alice" 1%N (mkUpdateTodoRequest None None (Some true))
              eq_refl eq_refl eq_refl eq_refl eq_refl Hex)
    as (Hr & _).
  split; [exact (status_of_response _ _ _ Hr)|].
  vm_compute. reflexivity.
Defined.

(** ** What each handler does to the store *)

Lemma GetTodos_effect (c : Context) (w : World) :
  todos (GetTodos c w).2 = todos w.
Proof.
  destruct (Get c "user_id") as [u|] eqn:Hu.
  - rewrite (GetTodos_run c w u Hu).
    destruct (peek (link w)); [destruct (peek (link (afterRoundTrip w)))|];
      reflexivity.
  - unfold GetTodos. rewrite Hu. reflexivity.
Qed.

Lemma CreateTodo_effect (c : Context) (w : World) :
  (status (CreateTodo c w).1 <> Some StatusCreated /\
   todos (CreateTodo c w).2 = todos w) \/
  (exists u req,
     Get c "user_id" = Some u /\
     bindCreate (Request_body c) = inr req /\
     Forall (fun t => ID t <> peek (oids w)) (todos w) /\
     Writer_response (CreateTodo c w).1 =
       Some (StatusCreated, {["todo" := V_Todo (created u req w)]}) /\
     todos (CreateTodo c w).2 = todos w ++ [created u req w]).
Proof.
  destruct (Get c "user_id") as [u|] eqn:Hu.
  - destruct (bindCreate (Request_body c)) as [e|req] eqn:Hb.
    + left. rewrite (CreateTodo_bad_body c w u e Hu Hb). cbn [fst snd].
      rewrite status_JSON. split; [discriminate | reflexivity].
    + rewrite (CreateTodo_run c w u req Hu Hb). cbv zeta.
      destruct (peek (link w));
        [|left; cbn [fst snd]; rewrite status_JSON;
          split; [discriminate | reflexivity]].
      destruct (existsb _ (todos w)) eqn:Hfresh;
        [left; cbn [fst snd]; rewrite status_JSON;
         split; [discriminate | reflexivity]|].
      right. exists u, req. split; [reflexivity|]. split; [reflexivity|].
      split.
      { apply existsb_ID_false in Hfresh. apply Forall_forall.
        intros t Ht Heq. apply Hfresh. rewrite <- Heq.
        by apply list_elem_of_fmap_2. }
      cbn [fst snd]. split; [reflexivity | apply todos_stored].
  - left. unfold CreateTodo. rewrite Hu. unfold ret, unauthenticated.
    cbn [fst snd]. rewrite status_JSON.
    split; [discriminate | reflexivity].
Qed.

Lemma DeleteTodo_effect (c : Context) (w : World) :
  (status (DeleteTodo c w).1 <> Some StatusOK /\
   todos (DeleteTodo c w).2 = todos w) \/
  (exists u i l1 t l2,
     Get c "user_id" = Some u /\
     ObjectIDFromHex (Param c "id") = Some i /\
     todos w = l1 ++ t :: l2 /\
     Forall (fun x => ~ (ID x = i /\ UserID x = u)) l1 /\
     ID t = i /\ UserID t = u /\
     status (DeleteTodo c w).1 = Some StatusOK /\
     todos (DeleteTodo c w).2 = l1 ++ l2).
Proof.
  destruct (Get c "user_id") as [u|] eqn:Hu.
  - destruct (ObjectIDFromHex (Param c "id")) as [i|] eqn:Hi.
    + rewrite (DeleteTodo_run c w u i Hu Hi). cbv zeta.
      destruct (peek (link w));
        [|left; cbn [fst snd]; rewrite status_JSON;
          split; [discriminate | reflexivity]].
      destruct (selected_dec (matches (ownedBy i u)) (todos w)) as [Hno|Hex].
      * left. rewrite (deleteFirst_none _ _ Hno). cbn [fst snd Z.eqb].
        unfold notFound. rewrite status_JSON, todos_stored.
        split; [discriminate | reflexivity].
      * right. destruct (first_split _ _ Hex) as (l1 & t & l2 & Hl & Hl1 & Ht).
        exists u, i, l1, t, l2.
        apply matches_ownedBy in Ht as Ht'. destruct Ht' as [Hid Hown].
        split; [reflexivity|]. split; [reflexivity|]. split; [exact Hl|].
        split.
        { eapply Forall_impl; [exact Hl1|]. intros x.
          apply matches_ownedBy_false. }
        split; [exact Hid|]. split; [exact Hown|].
        rewrite Hl, (deleteFirst_split _ _ _ _ Hl1 Ht). cbn [fst snd Z.eqb].
        rewrite status_JSON, todos_stored. split; reflexivity.
    + left. unfold DeleteTodo. rewrite Hu, Hi. unfold ret. cbn [fst snd].
      rewrite status_JSON. split; [discriminate | reflexivity].
  - left. unfold DeleteTodo. rewrite Hu. unfold ret, unauthenticated.
    cbn [fst snd]. rewrite status_JSON.
    split; [discriminate | reflexivity].
Qed.

Lemma UpdateTodo_effect (c : Context) (w : World) :
  todos (UpdateTodo c w).2 = todos w \/
  (exists u i req l1 old l2,
     Get c "user_id" = Some u /\
     ObjectIDFromHex (Param c "id") = Some i /\
     bindUpdate (Request_body c) = inr req /\
     todos w = l1 ++ old :: l2 /\
     Forall (fun x => ~ (ID x = i /\ UserID x = u)) l1 /\
     ID old = i /\ UserID old = u /\
     todos (UpdateTodo c w).2 =
       l1 ++ updated (peek (wall w)) req old :: l2).
Proof.
  destruct (Get c "user_id") as [u|] eqn:Hu;
    [|left; unfold UpdateTodo; rewrite Hu; reflexivity].
  destruct (ObjectIDFromHex (Param c "id")) as [i|] eqn:Hi;
    [|left; unfold UpdateTodo; rewrite Hu, Hi; reflexivity].
  destruct (bindUpdate (Request_body c)) as [e|req] eqn:Hb;
    [left; rewrite (UpdateTodo_bad_body c w u i e Hu Hi Hb); reflexivity|].
  rewrite (UpdateTodo_run c w u i req Hu Hi Hb). cbv zeta.
  destruct (peek (link w)); [|left; reflexivity].
  destruct (selected_dec (matches (ownedBy i u)) (todos w)) as [Hno|Hex].
  - left. rewrite (updateFirst_none _ _ _ Hno). cbn [fst snd Z.eqb].
    apply todos_stored.
  - right. destruct (first_split _ _ Hex) as (l1 & old & l2 & Hl & Hl1 & Hold).
    exists u, i, req, l1, old, l2.
    apply matches_ownedBy in Hold as Hold'. destruct Hold' as [Hid Hown].
    split; [reflexivity|]. split; [reflexivity|]. split; [reflexivity|].
    split; [exact Hl|]. split.
    { eapply Forall_impl; [exact Hl1|]. intros x. apply matches_ownedBy_false. }
    split; [exact Hid|]. split; [exact Hown|].
    rewrite Hl, (updateFirst_split _ _ _ _ _ Hl1 Hold), applySet_updateFields.
    cbn [fst snd Z.eqb].
    destruct (peek (link _)); cbn [snd]; apply todos_stored.
Qed.

(** The middleware, by the identity it resolves: the rest of the chain
    runs under [resolvedIdentity], in a world that differs from the one
    before at most by one token drawn. *)
Lemma AuthMiddleware_resolves (next : HandlerFunc) (c : Context) (w : World) :
  exists c' w',
    AuthMiddleware next c w = next c' w' /\
    Get c' "user_id" = Some (resolvedIdentity (Request_cookies c) w) /\
    (w' = w \/ w' = afterUUID w) /\
    Request_body c' = Request_body c /\
    Params c' = Params c /\
    Writer_response c' = Writer_response c.
Proof.
  unfold resolvedIdentity.
  destruct (firstCookie (cookieNameOf w) (Request_cookies c)) as [v|] eqn:Hc.
  - destruct (String.eqb v "") eqn:Hv.
    + apply String.eqb_eq in Hv. subst v. eexists _, _.
      split; [apply AuthMiddleware_minting; by right|].
      split; [apply lookup_insert_eq|]. split; [by right|].
      unfold SetCookie. destruct (isCookieNameValid _); repeat split.
    + apply String.eqb_neq in Hv. eexists _, _.
      split; [by apply AuthMiddleware_returning|].
      split; [apply lookup_insert_eq|]. split; [by left|]. repeat split.
  - eexists _, _. split; [apply AuthMiddleware_minting; by left|].
    split; [apply lookup_insert_eq|]. split; [by right|].
    unfold SetCookie. destruct (isCookieNameValid _); repeat split.
Qed.

(** X4.  Whatever an update request is and however it ends, the stored
    todos keep their number, their order, their identifiers, their
    owners and their created-timestamps. *)
Theorem update_keeps_todos_in_place (c : Context) (w : World) :
  ID <$> todos (UpdateTodo c w).2 = ID <$> todos w /\
  UserID <$> todos (UpdateTodo c w).2 = UserID <$> todos w /\
  CreatedAt <$> todos (UpdateTodo c w).2 = CreatedAt <$> todos w /\
  List.length (todos (UpdateTodo c w).2) = List.length (todos w).
Proof.
  destruct (UpdateTodo_effect c w)
    as [->|(u & i & req & l1 & old & l2 & _ & _ & _ & Hl & _ & _ & _ & ->)].
  - repeat split.
  - rewrite Hl, !fmap_app, !fmap_cons, !length_app. cbn. repeat split.
Qed.

(** X5.  Listing never changes the stored todos.  A create changes them
    only when it answers 201, and then by appending one document, which
    has the identifier, owner, title, description and completed flag of
    the returned todo; the owner is the caller and no stored todo had
    the identifier.  A delete changes them only when it answers 200, and
    then by removing one todo, which carries the path's identifier and
    is owned by the caller. *)
Theorem store_changes_only_with_success (c : Context) (w : World) :
  todos (GetTodos c w).2 = todos w /\
  ((status (CreateTodo c w).1 <> Some StatusCreated /\
    todos (CreateTodo c w).2 = todos w) \/
   (exists t doc,
      Writer_response (CreateTodo c w).1 =
        Some (StatusCreated, {["todo" := V_Todo t]}) /\
      Get c "user_id" = Some (UserID t) /\
      Forall (fun x => ID x <> ID t) (todos w) /\
      todos (CreateTodo c w).2 = todos w ++ [doc] /\
      sameApartFromTimes doc t)) /\
  ((status (DeleteTodo c w).1 <> Some StatusOK /\
    todos (DeleteTodo c w).2 = todos w) \/
   (exists l1 t l2,
      status (DeleteTodo c w).1 = Some StatusOK /\
      todos w = l1 ++ t :: l2 /\
      todos (DeleteTodo c w).2 = l1 ++ l2 /\
      ObjectIDFromHex (Param c "id") = Some (ID t) /\
      Get c "user_id" = Some (UserID t))).
Proof.
  split; [apply GetTodos_effect|]. split.
  - destruct (CreateTodo_effect c w)
      as [H|(u & req & Hu & _ & Hnew & Hr & Hl)]; [by left|].
    right. exists (created u req w), (created u req w).
    split; [exact Hr|]. split; [exact Hu|]. split; [exact Hnew|].
    split; [exact Hl|]. repeat split.
  - destruct (DeleteTodo_effect c w)
      as [H|(u & i & l1 & t & l2 & Hu & Hi & Hl & _ & Hid & Hown & Hs & Hl')];
      [by left|].
    right. exists l1, t, l2. subst i u. by repeat split.
Qed.

(** ** Other callers' todos *)

Lemma othersOf_app (u : string) (l1 l2 : list Todo) :
  othersOf u (l1 ++ l2) = othersOf u l1 ++ othersOf u l2.
Proof. apply List.filter_app. Qed.

Lemma othersOf_own (u : string) (t : Todo) (l : list Todo) :
  UserID t = u -> othersOf u (t :: l) = othersOf u l.
Proof.
  intros Hown. unfold othersOf. cbn.
  apply String.eqb_eq in Hown. by rewrite Hown.
Qed.

Lemma handler_keeps_others (r : Route) (c : Context) (w : World) (u : string) :
  Get c "user_id" = Some u ->
  othersOf u (todos (handlerOf r c w).2) = othersOf u (todos w).
Proof.
  intros Hu. destruct r as [| |id|id| |]; cbn [handlerOf]; [| | | |reflexivity..].
  - by rewrite GetTodos_effect.
  - destruct (CreateTodo_effect c w)
      as [[_ ->]|(u' & req & Hu' & _ & _ & _ & ->)]; [reflexivity|].
    rewrite Hu in Hu'. injection Hu' as <-.
    rewrite othersOf_app, othersOf_own by reflexivity. apply app_nil_r.
  - destruct (UpdateTodo_effect c w)
      as [->|(u' & i & req & l1 & old & l2 & Hu' & _ & _ & Hl & _ & _ & Hown
              & ->)]; [reflexivity|].
    rewrite Hu in Hu'. injection Hu' as <-.
    rewrite Hl, !othersOf_app, !othersOf_own; [reflexivity|exact Hown..].
  - destruct (DeleteTodo_effect c w)
      as [[_ ->]|(u' & i & l1 & t & l2 & Hu' & _ & Hl & _ & _ & Hown & _ & ->)];
      [reflexivity|].
    rewrite Hu in Hu'. injection Hu' as <-.
    by rewrite Hl, !othersOf_app, othersOf_own.
Qed.

(** X6.  A served request, whatever its route, cookies and body, leaves
    every todo that the identity it is served under does not own
    exactly as it was, in place: a caller can add, change or remove
    only todos of the identity its cookie resolves to. *)
Theorem request_leaves_others_todos (r : Route)
    (cookies : list (string * string)) (body : option json) (w : World) :
  othersOf (resolvedIdentity cookies w) (todos (ServeHTTP r cookies body w).2)
  = othersOf (resolvedIdentity cookies w) (todos w).
Proof.
  unfold ServeHTTP.
  destruct (AuthMiddleware_resolves (handlerOf r)
              (mkContext cookies body (paramsOf r) ∅ [] None) w)
    as (c' & w' & -> & Hu & Hw & _).
  change (Request_cookies (mkContext cookies body (paramsOf r) ∅ [] None))
    with cookies in Hu.
  rewrite (handler_keeps_others r c' w' _ Hu).
  destruct Hw as [-> | ->]; reflexivity.
Qed.

(** ** Status codes *)

Ltac pick_status :=
  rewrite status_JSON;
  repeat first [reflexivity | left; reflexivity | right].

(** X7.  Each todo handler always writes a response, and its status is
    one of a fixed few: 200, 401 or 500 for the listing; 201, 400, 401
    or 500 for a create; 200, 400, 401, 404 or 500 for an update and for
    a delete. *)
Theorem handlers_answer_known_statuses (c : Context) (w : World) :
  (status (GetTodos c w).1 = Some StatusOK \/
   status (GetTodos c w).1 = Some StatusUnauthorized \/
   status (GetTodos c w).1 = Some StatusInternalServerError) /\
  (status (CreateTodo c w).1 = Some StatusCreated \/
   status (CreateTodo c w).1 = Some StatusBadRequest \/
   status (CreateTodo c w).1 = Some StatusUnauthorized \/
   status (CreateTodo c w).1 = Some StatusInternalServerError) /\
  (status (UpdateTodo c w).1 = Some StatusOK \/
   status (UpdateTodo c w).1 = Some StatusBadRequest \/
   status (UpdateTodo c w).1 = Some StatusUnauthorized \/
   status (UpdateTodo c w).1 = Some StatusNotFound \/
   status (UpdateTodo c w).1 = Some StatusInternalServerError) /\
  (status (DeleteTodo c w).1 = Some StatusOK \/
   status (DeleteTodo c w).1 = Some StatusBadRequest \/
   status (DeleteTodo c w).1 = Some StatusUnauthorized \/
   status (DeleteTodo c w).1 = Some StatusNotFound \/
   status (DeleteTodo c w).1 = Some StatusInternalServerError).
Proof.
  destruct (Get c "user_id") as [u|] eqn:Hu.
  2:{ unfold GetTodos, CreateTodo, UpdateTodo, DeleteTodo. rewrite Hu.
      unfold ret, unauthenticated. cbn [fst].
      repeat split; pick_status. }
  split; [|split; [|split]].
  - rewrite (GetTodos_run c w u Hu).
    destruct (peek (link w)); [destruct (peek (link (afterRoundTrip w)))|];
      cbn [fst]; pick_status.
  - destruct (bindCreate (Request_body c)) as [e|req] eqn:Hb.
    + rewrite (CreateTodo_bad_body c w u e Hu Hb). cbn [fst]. pick_status.
    + rewrite (CreateTodo_run c w u req Hu Hb). cbv zeta.
      destruct (peek (link w)); [destruct (existsb _ (todos w))|];
        cbn [fst]; pick_status.
  - destruct (ObjectIDFromHex (Param c "id")) as [i|] eqn:Hi.
    + destruct (bindUpdate (Request_body c)) as [e|req] eqn:Hb.
      * rewrite (UpdateTodo_bad_body c w u i e Hu Hi Hb). cbn [fst].
        pick_status.
      * rewrite (UpdateTodo_run c w u i req Hu Hi Hb). cbv zeta.
        destruct (peek (link w));
          [destruct (Z.eqb _ 0);
             [|destruct (peek (link _)); [destruct (List.find _ _)|]]|];
          cbn [fst]; unfold notFound; pick_status.
    + unfold UpdateTodo. rewrite Hu, Hi. unfold ret. cbn [fst]. pick_status.
  - destruct (ObjectIDFromHex (Param c "id")) as [i|] eqn:Hi.
    + rewrite (DeleteTodo_run c w u i Hu Hi). cbv zeta.
      destruct (peek (link w)); [destruct (Z.eqb _ 0)|];
        cbn [fst]; unfold notFound; pick_status.
    + unfold DeleteTodo. rewrite Hu, Hi. unfold ret. cbn [fst]. pick_status.
Qed.

(** ** The health route *)

(** X8.  [GET /health], served behind the identity middleware, always
    answers 200 with the same two fields, whatever the cookies, the
    body and the state of the database link; it makes no round trip,
    reads no clock and leaves the stored todos alone. *)
Theorem health_never_touches_the_database
    (cookies : list (string * string)) (body : option json) (w : World) :
  Writer_response (ServeHTTP GET_health cookies body w).1 =
    Some (StatusOK,
          {["status" := V_string "ok";
            "message" := V_string "Todo API is running"]}) /\
  link (ServeHTTP GET_health cookies body w).2 = link w /\
  wall (ServeHTTP GET_health cookies body w).2 = wall w /\
  db (ServeHTTP GET_health cookies body w).2 = db w.
Proof.
  unfold ServeHTTP.
  destruct (AuthMiddleware_resolves (handlerOf GET_health)
              (mkContext cookies body (paramsOf GET_health) ∅ [] None) w)
    as (c' & w' & -> & _ & Hw & _).
  cbn [handlerOf]. unfold health, ret. cbn [fst snd].
  split; [reflexivity|]. destruct Hw as [-> | ->]; repeat split.
Qed.


(** ** Requests in sequence *)

Lemma othersOf_or_own (u : string) (l1 l2 : list Todo) :
  List.filter (fun t => String.eqb (UserID t) u) (l1 ++ l2) =
  List.filter (fun t => String.eqb (UserID t) u) l1 ++
  List.filter (fun t => String.eqb (UserID t) u) l2.
Proof. apply List.filter_app. Qed.

(** X9.  Create, then list.  After a create by caller [u] that the
    database accepts, a listing by [u] whose round trips succeed
    returns what a listing before the create would have returned,
    followed by one more todo: it has the identifier, owner, title,
    description and completed flag of the todo the create returned, the
    title and description being the ones of the request. *)
Theorem created_todo_is_listed_last (c c2 : Context) (w : World) (u : string)
    (req : CreateTodoRequest)
    (Hu : Get c "user_id" = Some u)
    (Hu2 : Get c2 "user_id" = Some u)
    (Hvalid : bindCreate (Request_body c) = inr req)
    (Hup : peek (link w) = true)
    (Hup2 : peek (link (afterRoundTrip w)) = true)
    (Hup3 : peek (link (afterRoundTrip (afterRoundTrip w))) = true)
    (Hnew : Forall (fun t => ID t <> peek (oids w)) (todos w)) :
  exists t doc,
    Writer_response (CreateTodo c w).1 =
      Some (StatusCreated, {["todo" := V_Todo t]}) /\
    sameApartFromTimes doc t /\
    Title doc = create_Title req /\
    Description doc = create_Description req /\
    Writer_response (GetTodos c2 (CreateTodo c w).2).1 =
      Some (StatusOK,
            {["todos" :=
                V_Todos (elements
                           (List.filter (fun x => String.eqb (UserID x) u)
                              (todos w) ++ [doc]))]}).
Proof.
  exists (created u req w), (created u req w).
  rewrite (CreateTodo_run c w u req Hu Hvalid), Hup. cbv zeta.
  assert (existsb (fun t => N.eqb (ID t) (peek (oids w))) (todos w) = false)
    as ->.
  { apply existsb_ID_false. intros Hin.
    apply list_elem_of_fmap in Hin as (t & Heq & Hin).
    rewrite Forall_forall in Hnew. by apply (Hnew t Hin). }
  cbn [fst snd]. split; [reflexivity|]. split; [repeat split|].
  split; [reflexivity|]. split; [reflexivity|].
  rewrite (GetTodos_run c2 _ u Hu2).
  change (peek (link (stored _ _))) with (peek (link (afterRoundTrip w))).
  rewrite Hup2.
  change (peek (link (afterRoundTrip (stored _ _))))
    with (peek (link (afterRoundTrip (afterRoundTrip w)))).
  rewrite Hup3. cbn [fst]. rewrite response_JSON, todos_stored, filter_owner.
  rewrite othersOf_or_own. cbn [List.filter created UserID].
  by rewrite String.eqb_refl.
Qed.

Lemma created_todo_is_listed_last_witness :
  let c := requestOf "alice" "" (Some (JObject [("title", JString "call bob")])) in
  let c2 := requestOf "alice" "" None in
  let w := calmWorld [todoB] in
  Get c "user_id" = Some "alice" /\
  Get c2 "user_id" = Some "alice" /\
  bindCreate (Request_body c) = inr (mkCreateTodoRequest "call bob" "") /\
  peek (link w) = true /\
  peek (link (afterRoundTrip w)) = true /\
  peek (link (afterRoundTrip (afterRoundTrip w))) = true /\
  Forall (fun t => ID t <> peek (oids w)) (todos w) /\
  exists doc,
    Title doc = "call bob" /\
    Writer_response (GetTodos c2 (CreateTodo c w).2).1 =
      Some (StatusOK, {["todos" := V_Todos (elements ([todoB] ++ [doc]))]}).
Proof.
  cbv zeta.
  assert (Forall (fun t => ID t <> peek (oids (calmWorld [todoB])))
            (todos (calmWorld [todoB]))) as Hnew.
  { assert (todos (calmWorld [todoB]) = [todoB]) as ->
      by (vm_compute; reflexivity).
    constructor; [|constructor]. vm_compute. discriminate. }
  do 6 (split; [reflexivity|]). split; [exact Hnew|].
  destruct (created_todo_is_listed_last
              (requestOf "alice" ""
                 (Some (JObject [("title", JString "call bob")])))
              (requestOf "alice" "" None) (calmWorld [todoB]) "alice"
              (mkCreateTodoRequest "call bob" "")
              eq_refl eq_refl eq_refl eq_refl eq_refl eq_refl Hnew)
    as (t & doc & _ & _ & Ht & _ & Hlist).
  exists doc. split; [exact Ht | exact Hlist].
Defined.

(** X10.  Create, then delete.  A create by caller [u] that the
    database accepts adds one document to the stored todos; a delete by
    [u] of the returned identifier, when its round trip succeeds, is then
    answered 200 and leaves the stored todos exactly as they were before
    the create. *)
Theorem delete_undoes_create (c c2 : Context) (w : World) (u : string)
    (req : CreateTodoRequest)
    (Hu : Get c "user_id" = Some u)
    (Hu2 : Get c2 "user_id" = Some u)
    (Hvalid : bindCreate (Request_body c) = inr req)
    (Hid2 : ObjectIDFromHex (Param c2 "id") = Some (peek (oids w)))
    (Hup : peek (link w) = true)
    (Hup2 : peek (link (afterRoundTrip w)) = true)
    (Hnew : Forall (fun t => ID t <> peek (oids w)) (todos w)) :
  exists t,
    Writer_response (CreateTodo c w).1 =
      Some (StatusCreated, {["todo" := V_Todo t]}) /\
    ObjectIDFromHex (Param c2 "id") = Some (ID t) /\
    List.length (todos (CreateTodo c w).2) = S (List.length (todos w)) /\
    status (DeleteTodo c2 (CreateTodo c w).2).1 = Some StatusOK /\
    todos (DeleteTodo c2 (CreateTodo c w).2).2 = todos w.
Proof.
  exists (created u req w).
  rewrite (CreateTodo_run c w u req Hu Hvalid), Hup. cbv zeta.
  assert (existsb (fun t => N.eqb (ID t) (peek (oids w))) (todos w) = false)
    as ->.
  { apply existsb_ID_false. intros Hin.
    apply list_elem_of_fmap in Hin as (t & Heq & Hin).
    rewrite Forall_forall in Hnew. by apply (Hnew t Hin). }
  cbn [fst snd]. split; [reflexivity|]. split; [exact Hid2|].
  split; [rewrite todos_stored, length_app; cbn [List.length]; lia|].
  rewrite (DeleteTodo_run c2 _ u _ Hu2 Hid2).
  change (peek (link (stored _ _))) with (peek (link (afterRoundTrip w))).
  rewrite Hup2, todos_stored. cbv zeta.
  rewrite (deleteFirst_split (matches (ownedBy (peek (oids w)) u))
             (todos w) [] (created u req w)).
  - cbn [fst snd Z.eqb]. rewrite status_JSON, todos_stored, app_nil_r.
    split; reflexivity.
  - eapply Forall_impl; [exact Hnew|]. intros t Ht.
    apply matches_ownedBy_false. intros [Hid _]. by apply Ht.
  - apply matches_ownedBy. split; reflexivity.
Qed.

Lemma delete_undoes_create_witness :
  let c := requestOf "alice" "" (Some (JObject [("title", JString "call bob")])) in
  let c2 := requestOf "alice" "000000000000000000000001" None in
  let w := calmWorld [todoB] in
  Get c "user_id" = Some "alice" /\
  Get c2 "user_id" = Some "alice" /\
  bindCreate (Request_body c) = inr (mkCreateTodoRequest "call bob" "") /\
  ObjectIDFromHex (Param c2 "id") = Some (peek (oids w)) /\
  peek (link w) = true /\
  peek (link (afterRoundTrip w)) = true /\
  Forall (fun t => ID t <> peek (oids w)) (todos w) /\
  status (DeleteTodo c2 (CreateTodo c w).2).1 = Some StatusOK /\
  todos (DeleteTodo c2 (CreateTodo c w).2).2 = [todoB].
Proof.
  cbv zeta.
  assert (todos (calmWorld [todoB]) = [todoB]) as Hl
    by (vm_compute; reflexivity).
  assert (Forall (fun t => ID t <> peek (oids (calmWorld [todoB])))
            (todos (calmWorld [todoB]))) as Hnew.
  { rewrite Hl. constructor; [|constructor]. vm_compute. discriminate. }
  do 6 (split; [reflexivity|]). split; [exact Hnew|].
  destruct (delete_undoes_create
              (requestOf "alice" ""
                 (Some (JObject [("title", JString "call bob")])))
              (requestOf "alice" "000000000000000000000001" None)
              (calmWorld [todoB]) "alice" (mkCreateTodoRequest "call bob" "")
              eq_refl eq_refl eq_refl eq_refl eq_refl eq_refl Hnew)
    as (t & _ & _ & _ & Hs & Hback).
  split; [exact Hs|]. rewrite Hback. exact Hl.
Defined.

(** ** The identity over two requests *)

(** X11.  A request without the identity cookie (or with an empty one)
    is served under a newly drawn token and gets it back in one cookie.
    A later request that presents that token, when the token is not the
    empty string, is served under the same identity, in the world the
    first request left, with no token drawn and no cookie set. *)
Theorem presented_token_is_the_same_identity (r r2 : Route)
    (cookies cookies2 : list (string * string)) (body body2 : option json)
    (w : World)
    (Hmissing : firstCookie (cookieNameOf w) cookies = None \/
                firstCookie (cookieNameOf w) cookies = Some "")
    (Htoken : peek (uuids w) <> "")
    (Hpresent : firstCookie (cookieNameOf w) cookies2 = Some (peek (uuids w))) :
  let token := peek (uuids w) in
  let w1 := (ServeHTTP r cookies body w).2 in
  (exists c1,
     ServeHTTP r cookies body w = handlerOf r c1 (afterUUID w) /\
     Get c1 "user_id" = Some token) /\
  Writer_cookies (ServeHTTP r cookies body w).1 = [identityCookie w] /\
  (exists c2,
     ServeHTTP r2 cookies2 body2 w1 = handlerOf r2 c2 w1 /\
     Get c2 "user_id" = Some token) /\
  Writer_cookies (ServeHTTP r2 cookies2 body2 w1).1 = [].
Proof.
  cbv zeta. unfold ServeHTTP.
  rewrite (AuthMiddleware_minting (handlerOf r)
             (mkContext cookies body (paramsOf r) ∅ [] None) w Hmissing).
  set (c1 := Set_ (SetCookie _ _ _ _ _ _ _ _) "user_id" (peek (uuids w))).
  set (w1 := (handlerOf r c1 (afterUUID w)).2).
  assert (cookieNameOf w1 = cookieNameOf w) as Hname.
  { unfold cookieNameOf, w1.
    destruct (handler_keeps_settings r c1 (afterUUID w)) as [-> _].
    reflexivity. }
  assert (firstCookie (cookieNameOf w1)
            (Request_cookies (mkContext cookies2 body2 (paramsOf r2) ∅ [] None))
          = Some (peek (uuids w))) as Hc2
    by (rewrite Hname; exact Hpresent).
  rewrite (AuthMiddleware_returning (handlerOf r2) _ w1 _ Hc2 Htoken).
  split; [exists c1; split; [reflexivity | apply lookup_insert_eq]|].
  split.
  { destruct (handler_answers r c1 (afterUUID w)) as (code & _ & _ & ->).
    unfold c1. cbn [Set_ Writer_cookies].
    by rewrite (SetCookie_valid _ _ _ _ _ _ _ _
                  (firstCookie_valid _ _ _ Hpresent)). }
  split; [eexists; split; [reflexivity | apply lookup_insert_eq]|].
  destruct (handler_answers r2
              (Set_ (mkContext cookies2 body2 (paramsOf r2) ∅ [] None)
                 "user_id" (peek (uuids w))) w1) as (code & _ & _ & ->).
  reflexivity.
Qed.

Lemma presented_token_is_the_same_identity_witness :
  let w := calmWorld [] in
  (firstCookie (cookieNameOf w) [] = None \/
   firstCookie (cookieNameOf w) [] = Some "") /\
  peek (uuids w) <> "" /\
  firstCookie (cookieNameOf w) [("todo_user_id", "uuid-a")]
    = Some (peek (uuids w)) /\
  Writer_cookies
    (ServeHTTP POST_todos [] (Some (JObject [("title", JString "call bob")])) w).1
    = [mkCookie "todo_user_id" "uuid-a" 86400 "/" "" false true] /\
  Writer_cookies
    (ServeHTTP GET_todos [("todo_user_id", "uuid-a")] None
       (ServeHTTP POST_todos []
          (Some (JObject [("title", JString "call bob")])) w).2).1 = [].
Proof.
  cbv zeta.
  assert (peek (uuids (calmWorld [])) <> "") as Htoken
    by (vm_compute; discriminate).
  destruct (presented_token_is_the_same_identity POST_todos GET_todos []
              [("todo_user_id", "uuid-a")]
              (Some (JObject [("title", JString "call bob")])) None
              (calmWorld []) (or_introl eq_refl) Htoken eq_refl)
    as (_ & Hset & _ & Hkeep).
  split; [left; reflexivity|]. split; [exact Htoken|].
  split; [reflexivity|]. split; [exact Hset | exact Hkeep].
Defined.

(** ** Titles *)

Lemma titled_app (l1 l2 : list Todo) :
  titled (l1 ++ l2) <-> titled l1 /\ titled l2.
Proof. apply Forall_app. Qed.

(** X12.  Only an update that supplies the empty string as title can
    bring an empty title into the store: when every stored title is
    non-empty, it stays so after any handler of the route table, unless
    the handler is the update and its body binds with [title] set to
    the empty string. *)
Theorem titles_stay_nonempty (r : Route) (c : Context) (w : World)
    (Htitled : titled (todos w))
    (Hreq : forall id req,
        r = PUT_todos_id id ->
        bindUpdate (Request_body c) = inr req ->
        update_Title req <> Some "") :
  titled (todos (handlerOf r c w).2).
Proof.
  destruct r as [| |id|id| |]; cbn [handlerOf]; [| | | |exact Htitled..].
  - by rewrite GetTodos_effect.
  - by apply CreateTodo_titled.
  - destruct (UpdateTodo_effect c w)
      as [->|(u & i & req & l1 & old & l2 & _ & _ & Hb & Hl & _ & _ & _ & ->)];
      [exact Htitled|].
    rewrite Hl in Htitled.
    apply titled_app in Htitled as [H1 [Hold H2]%Forall_cons].
    apply titled_app. split; [exact H1|]. constructor; [|exact H2].
    cbn [updated Title]. specialize (Hreq id req eq_refl Hb).
    destruct (update_Title req) as [s|]; [|exact Hold].
    intros ->. by apply Hreq.
  - destruct (DeleteTodo_effect c w)
      as [[_ ->]|(u & i & l1 & t & l2 & _ & _ & Hl & _ & _ & _ & _ & ->)];
      [exact Htitled|].
    rewrite Hl in Htitled.
    apply titled_app in Htitled as [H1 [_ H2]%Forall_cons].
    apply titled_app. by split.
Qed.

Lemma titles_stay_nonempty_witness :
  let c := requestOf "alice" "000000000000000000000001"
             (Some (JObject [("title", JString "buy oat milk")])) in
  let w := calmWorld [todoA] in
  titled (todos w) /\
  (forall id req,
     PUT_todos_id "000000000000000000000001" = PUT_todos_id id ->
     bindUpdate (Request_body c) = inr req ->
     update_Title req <> Some "") /\
  titled (todos (UpdateTodo c w).2).
Proof.
  cbv zeta.
  assert (titled (todos (calmWorld [todoA]))) as Htitled.
  { assert (todos (calmWorld [todoA]) = [todoA]) as ->
      by (vm_compute; reflexivity).
    constructor; [|constructor]. vm_compute. discriminate. }
  assert (forall id req,
            PUT_todos_id "000000000000000000000001" = PUT_todos_id id ->
            bindUpdate
              (Request_body
                 (requestOf "alice" "000000000000000000000001"
                    (Some (JObject [("title", JString "buy oat milk")]))))
            = inr req ->
            update_Title req <> Some "") as Hreq.
  { intros id req _ Hb. vm_compute in Hb. injection Hb as <-.
    cbn. discriminate. }
  split; [exact Htitled|]. split; [exact Hreq|].
  exact (titles_stay_nonempty (PUT_todos_id "000000000000000000000001")
           (requestOf "alice" "000000000000000000000001"
              (Some (JObject [("title", JString "buy oat milk")])))
           (calmWorld [todoA]) Htitled Hreq).
Defined.

(** ** Updating twice *)

Lemma updated_twice (now1 now2 : Time) (req : UpdateTodoRequest) (t : Todo) :
  updated now2 req (updated now1 req t) = updated now2 req t.
Proof. destruct req as [[s|] [d|] [b|]]; reflexivity. Qed.

(** X13.  An update sent twice, both times reaching the database, leaves
    the stored todos as a single update at the time of the second would:
    title, description and completed are what the request says, and
    only the updated-timestamp tells the second from the first. *)
Theorem update_twice_is_update_once (c : Context) (w : World) (u : string)
    (i : ObjectID) (req : UpdateTodoRequest)
    (Hu : Get c "user_id" = Some u)
    (Hi : ObjectIDFromHex (Param c "id") = Some i)
    (Hb : bindUpdate (Request_body c) = inr req)
    (Hup : peek (link w) = true)
    (Hup3 : peek (link (afterRoundTrip (afterRoundTrip w))) = true)
    (Hmatch : Exists (fun t => ID t = i /\ UserID t = u) (todos w)) :
  exists l1 old l2,
    todos w = l1 ++ old :: l2 /\
    todos (UpdateTodo c w).2 = l1 ++ updated (peek (wall w)) req old :: l2 /\
    todos (UpdateTodo c (UpdateTodo c w).2).2 =
      l1 ++ updated (peek (wall (afterClock w))) req old :: l2.
Proof.
  assert (Exists (fun t => matches (ownedBy i u) t = true) (todos w)) as Hex.
  { eapply Exists_impl; [exact Hmatch|]. intros t. apply matches_ownedBy. }
  destruct (first_split _ _ Hex) as (l1 & old & l2 & Hl & Hl1 & Hold).
  exists l1, old, l2. split; [exact Hl|].
  assert ((UpdateTodo c w).2 =
          afterRoundTrip
            (stored (l1 ++ updated (peek (wall w)) req old :: l2)
               (afterRoundTrip (afterClock w)))) as Hw1.
  { rewrite (UpdateTodo_run c w u i req Hu Hi Hb), Hup, Hl.
    rewrite (updateFirst_split _ _ _ _ _ Hl1 Hold), applySet_updateFields.
    cbv zeta. cbn [fst snd Z.eqb].
    change (peek (link (stored _ (afterRoundTrip (afterClock w)))))
      with (peek (link (afterRoundTrip w))).
    destruct (peek (link (afterRoundTrip w))); reflexivity. }
  rewrite Hw1. split; [rewrite todos_afterRoundTrip; apply todos_stored|].
  rewrite (UpdateTodo_run c _ u i req Hu Hi Hb).
  change (peek (link (afterRoundTrip (stored _ _))))
    with (peek (link (afterRoundTrip (afterRoundTrip w)))).
  rewrite Hup3, todos_afterRoundTrip, todos_stored.
  change (peek (wall (afterRoundTrip (stored _ _))))
    with (peek (wall (afterClock w))).
  rewrite (updateFirst_split _ _ _ _ _ Hl1);
    [|rewrite updated_matches; exact Hold].
  rewrite applySet_updateFields, updated_twice. cbv zeta. cbn [fst snd Z.eqb].
  match goal with
  | |- context [if ?b then _ else _] => destruct b
  end; cbn [snd]; rewrite todos_afterRoundTrip; apply todos_stored.
Qed.

Lemma update_twice_is_update_once_witness :
  let c := requestOf "alice" "000000000000000000000001"
             (Some (JObject [("completed", JBool true)])) in
  let w := calmWorld [todoA] in
  Get c "user_id" = Some "alice" /\
  ObjectIDFromHex (Param c "id") = Some 1%N /\
  bindUpdate (Request_body c) = inr (mkUpdateTodoRequest None None (Some true)) /\
  peek (link w) = true /\
  peek (link (afterRoundTrip (afterRoundTrip w))) = true /\
  Exists (fun t => ID t = 1%N /\ UserID t = "alice") (todos w) /\
  exists l1 old l2,
    todos w = l1 ++ old :: l2 /\
    todos (UpdateTodo c (UpdateTodo c w).2).2 =
      l1 ++ updated 101%Z (mkUpdateTodoRequest None None (Some true)) old :: l2.
Proof.
  cbv zeta.
  assert (Exists (fun t => ID t = 1%N /\ UserID t = "alice")
            (todos (calmWorld [todoA]))) as Hex.
  { assert (todos (calmWorld [todoA]) = [todoA]) as ->
      by (vm_compute; reflexivity).
    left. split; reflexivity. }
  do 5 (split; [reflexivity|]). split; [exact Hex|].
  destruct (update_twice_is_update_once
              (requestOf "alice" "000000000000000000000001"
                 (Some (JObject [("completed", JBool true)])))
              (calmWorld [todoA]) "alice" 1%N
              (mkUpdateTodoRequest None None (Some true))
              eq_refl eq_refl eq_refl eq_refl eq_refl Hex)
    as (l1 & old & l2 & Hl & _ & Hl2).
  exists l1, old, l2. split; [exact Hl | exact Hl2].
Defined.

(** ** Other collections *)

Lemma documents_stored_other (name : string) (l : list Todo) (w : World) :
  name <> collectionOf w -> documents name (stored l w) = documents name w.
Proof.
  intros Hne. unfold documents, stored, writeDocuments. cbn [snd db].
  by rewrite lookup_insert_ne.
Qed.

(** X14.  The handlers work on the one collection that COLLECTION_NAME
    names ("todos" when it is unset or empty): whatever the request,
    the documents of every other collection of the database are as they
    were. *)
Theorem other_collections_untouched (r : Route)
    (cookies : list (string * string)) (body : option json) (w : World)
    (name : string)
    (Hother : name <> collectionOf w) :
  documents name (ServeHTTP r cookies body w).2 = documents name w.
Proof.
  unfold ServeHTTP.
  destruct (AuthMiddleware_resolves (handlerOf r)
              (mkContext cookies body (paramsOf r) ∅ [] None) w)
    as (c & w' & -> & _ & Hw & _).
  assert (documents name w' = documents name w /\
          collectionOf w' = collectionOf w) as [<- Hcoll]
    by (destruct Hw as [-> | ->]; split; reflexivity).
  rewrite <- Hcoll in Hother. clear Hw Hcoll w. rename w' into w.
  destruct r as [| |id|id| |]; cbn [handlerOf]; [| | | |reflexivity..].
  - destruct (Get c "user_id") as [u|] eqn:Hu.
    + rewrite (GetTodos_run c w u Hu).
      destruct (peek (link w)); [destruct (peek (link (afterRoundTrip w)))|];
        reflexivity.
    + unfold GetTodos. rewrite Hu. reflexivity.
  - destruct (Get c "user_id") as [u|] eqn:Hu.
    + destruct (bindCreate (Request_body c)) as [e|req] eqn:Hb.
      * rewrite (CreateTodo_bad_body c w u e Hu Hb). reflexivity.
      * rewrite (CreateTodo_run c w u req Hu Hb). cbv zeta.
        destruct (peek (link w)); [destruct (existsb _ (todos w))|];
          cbn [snd]; rewrite ?documents_stored_other by exact Hother;
          reflexivity.
    + unfold CreateTodo. rewrite Hu. reflexivity.
  - destruct (Get c "user_id") as [u|] eqn:Hu.
    + destruct (ObjectIDFromHex (Param c "id")) as [i|] eqn:Hi.
      * destruct (bindUpdate (Request_body c)) as [e|req] eqn:Hb.
        -- rewrite (UpdateTodo_bad_body c w u i e Hu Hi Hb). reflexivity.
        -- rewrite (UpdateTodo_run c w u i req Hu Hi Hb). cbv zeta.
           destruct (peek (link w)); [|reflexivity].
           assert (forall l,
                     documents name
                       (afterRoundTrip
                          (stored l (afterRoundTrip (afterClock w))))
                     = documents name w) as Hlater.
           { intros l.
             change (documents name (afterRoundTrip ?x))
               with (documents name x).
             by rewrite documents_stored_other. }
           destruct (Z.eqb _ 0); [|destruct (peek (link _))]; cbn [snd];
             rewrite ?Hlater, ?documents_stored_other by exact Hother;
             reflexivity.
      * unfold UpdateTodo. rewrite Hu, Hi. reflexivity.
    + unfold UpdateTodo. rewrite Hu. reflexivity.
  - destruct (Get c "user_id") as [u|] eqn:Hu.
    + destruct (ObjectIDFromHex (Param c "id")) as [i|] eqn:Hi.
      * rewrite (DeleteTodo_run c w u i Hu Hi). cbv zeta.
        destruct (peek (link w)); cbn [snd];
          rewrite ?documents_stored_other by exact Hother; reflexivity.
      * unfold DeleteTodo. rewrite Hu, Hi. reflexivity.
    + unfold DeleteTodo. rewrite Hu. reflexivity.
Qed.

Lemma other_collections_untouched_witness :
  let w := mkWorld (fun _ => "")
             (mkSource (fun n => (100 + Z.of_nat n)%Z) 0)
             (mkSource (fun _ => "uuid-a") 0)
             (mkSource (fun n => (1 + N.of_nat n)%N) 0)
             (mkSource (fun _ => true) 0)
             {["todos" := []; "archive" := [todoA]]} in
  "archive" <> collectionOf w /\
  documents "archive"
    (ServeHTTP (DELETE_todos_id "000000000000000000000001")
       [("todo_user_id", "alice")] None w).2 = [todoA].
Proof.
  cbv zeta.
  set (w := mkWorld (fun _ => "")
             (mkSource (fun n => (100 + Z.of_nat n)%Z) 0)
             (mkSource (fun _ => "uuid-a") 0)
             (mkSource (fun n => (1 + N.of_nat n)%N) 0)
             (mkSource (fun _ => true) 0)
             {["todos" := []; "archive" := [todoA]]}).
  assert ("archive" <> collectionOf w) as Hne by (vm_compute; discriminate).
  split; [exact Hne|].
  rewrite (other_collections_untouched
             (DELETE_todos_id "000000000000000000000001")
             [("todo_user_id", "alice")] None w "archive" Hne).
  vm_compute. reflexivity.
Defined.

(** ** Timestamps *)

Lemma timely_later (w w' : World) :
  todos w' = todos w -> (peek (wall w) <= peek (wall w'))%Z ->
  timely w -> timely w'.
Proof.
  unfold timely. intros -> Hle Hw.
  eapply Forall_impl; [exact Hw|]. cbn. intros t [H1 H2]. split; lia.
Qed.

Lemma timely_stored (l : list Todo) (w : World) :
  Forall (fun t => (CreatedAt t <= UpdatedAt t)%Z /\
                   (UpdatedAt t <= peek (wall w))%Z) l ->
  timely (stored l w).
Proof. unfold timely. by rewrite todos_stored. Qed.

(** X15.  On a clock that never goes back, if every stored todo was
    created no later than last updated, and last updated no later than
    the clock reads, then the same holds after any handler of the route
    table has run: a create stamps its two readings in order, and an
    update moves the updated-timestamp to a reading that is not before
    the created-timestamp. *)
Theorem timestamps_stay_ordered (r : Route) (c : Context) (w : World)
    (Hclock : monotone (wall w))
    (Hw : timely w) :
  timely (handlerOf r c w).2 /\ monotone (wall (handlerOf r c w).2).
Proof.
  assert (peek (wall w) <= peek (wall (afterClock w)))%Z as Hstep1
    by (apply Hclock; cbn; lia).
  assert (peek (wall w) <= peek (wall (afterClock (afterClock w))))%Z as Hstep2
    by (apply Hclock; cbn; lia).
  assert (peek (wall (afterClock w))
          <= peek (wall (afterClock (afterClock w))))%Z as Hstep12
    by (apply Hclock; cbn; lia).
  destruct r as [| |id|id| |]; cbn [handlerOf]; [| | | |by split..].
  - destruct (Get c "user_id") as [u|] eqn:Hu.
    + rewrite (GetTodos_run c w u Hu).
      destruct (peek (link w)); [destruct (peek (link (afterRoundTrip w)))|];
        by split.
    + unfold GetTodos. rewrite Hu. by split.
  - destruct (Get c "user_id") as [u|] eqn:Hu;
      [|unfold CreateTodo; rewrite Hu; by split].
    destruct (bindCreate (Request_body c)) as [e|req] eqn:Hb;
      [rewrite (CreateTodo_bad_body c w u e Hu Hb); by split|].
    rewrite (CreateTodo_run c w u req Hu Hb). cbv zeta.
    assert (timely (afterRoundTrip (afterObjectID (afterClock (afterClock w)))))
      as Hw2 by (by apply (timely_later w)).
    destruct (peek (link w)); [|by split].
    destruct (existsb _ (todos w)); [by split|]. cbn [snd].
    split; [|exact Hclock]. apply timely_stored.
    apply Forall_app. split; [exact Hw2|].
    constructor; [|constructor]. cbn [created CreatedAt UpdatedAt].
    split; [exact Hstep1 | exact Hstep12].
  - destruct (Get c "user_id") as [u|] eqn:Hu;
      [|unfold UpdateTodo; rewrite Hu; by split].
    destruct (ObjectIDFromHex (Param c "id")) as [i|] eqn:Hi;
      [|unfold UpdateTodo; rewrite Hu, Hi; by split].
    destruct (bindUpdate (Request_body c)) as [e|req] eqn:Hb;
      [rewrite (UpdateTodo_bad_body c w u i e Hu Hi Hb); by split|].
    rewrite (UpdateTodo_run c w u i req Hu Hi Hb). cbv zeta.
    assert (timely (afterRoundTrip (afterClock w))) as Hw1
      by (by apply (timely_later w)).
    destruct (peek (link w)); [|by split].
    assert (timely
              (stored
                 (updateFirst (matches (ownedBy i u))
                    (applySet (updateFields (peek (wall w)) req)) (todos w)).1
                 (afterRoundTrip (afterClock w)))) as Hstored.
    { apply timely_stored.
      destruct (selected_dec (matches (ownedBy i u)) (todos w)) as [Hno|Hex].
      - rewrite (updateFirst_none _ _ _ Hno). exact Hw1.
      - destruct (first_split _ _ Hex) as (l1 & old & l2 & Hl & Hl1 & Hold).
        unfold timely in Hw1.
        change (todos (afterRoundTrip (afterClock w))) with (todos w) in Hw1.
        rewrite Hl in Hw1 |- *.
        rewrite (updateFirst_split _ _ _ _ _ Hl1 Hold), applySet_updateFields.
        cbn [fst].
        apply Forall_app in Hw1 as [H1 [Hold' H2]%Forall_cons].
        apply Forall_app. split; [exact H1|]. constructor; [|exact H2].
        cbn [updated CreatedAt UpdatedAt].
        change (peek (wall (afterRoundTrip (afterClock w))))
          with (peek (wall (afterClock w))) in Hold' |- *.
        assert (UpdatedAt old <= peek (wall w))%Z as Hwas.
        { unfold timely in Hw. rewrite Hl in Hw.
          apply Forall_app in Hw as [_ [[_ Hu0] _]%Forall_cons]. exact Hu0. }
        destruct Hold' as [Hco _]. split; lia. }
    destruct (Z.eqb _ 0); [|destruct (peek (link _))]; cbn [snd];
      (split; [exact Hstored | exact Hclock]).
  - destruct (Get c "user_id") as [u|] eqn:Hu;
      [|unfold DeleteTodo; rewrite Hu; by split].
    destruct (ObjectIDFromHex (Param c "id")) as [i|] eqn:Hi;
      [|unfold DeleteTodo; rewrite Hu, Hi; by split].
    rewrite (DeleteTodo_run c w u i Hu Hi). cbv zeta.
    destruct (peek (link w)); [|by split]. cbn [snd].
    split; [|exact Hclock]. apply timely_stored.
    destruct (selected_dec (matches (ownedBy i u)) (todos w)) as [Hno|Hex].
    + rewrite (deleteFirst_none _ _ Hno). exact Hw.
    + destruct (first_split _ _ Hex) as (l1 & t & l2 & Hl & Hl1 & Ht).
      unfold timely in Hw. rewrite Hl in Hw |- *.
      rewrite (deleteFirst_split _ _ _ _ Hl1 Ht). cbn [fst].
      apply Forall_app in Hw as [H1 [_ H2]%Forall_cons].
      apply Forall_app. by split.
Qed.

Lemma timestamps_stay_ordered_witness :
  let c := requestOf "alice" "" (Some (JObject [("title", JString "call bob")])) in
  let w := calmWorld [todoB] in
  monotone (wall w) /\ timely w /\ timely (CreateTodo c w).2.
Proof.
  cbv zeta.
  assert (monotone (wall (calmWorld [todoB]))) as Hclock
    by (intros m n Hmn; cbn; lia).
  assert (timely (calmWorld [todoB])) as Hw.
  { unfold timely.
    assert (todos (calmWorld [todoB]) = [todoB]) as ->
      by (vm_compute; reflexivity).
    constructor; [|constructor]. cbn. lia. }
  split; [exact Hclock|]. split; [exact Hw|].
  exact (proj1 (timestamps_stay_ordered POST_todos
                  (requestOf "alice" ""
                     (Some (JObject [("title", JString "call bob")])))
                  (calmWorld [todoB]) Hclock Hw)).
Defined.

(** X16.  Update, then list.  After an update by caller [u] that
    matches a stored todo, a listing by [u] whose round trips succeed
    shows the updated todo where the old one was, between the same
    todos of [u] as before. *)
Theorem updated_todo_is_listed_in_place (c c2 : Context) (w : World)
    (u : string) (i : ObjectID) (req : UpdateTodoRequest)
    (Hu : Get c "user_id" = Some u)
    (Hu2 : Get c2 "user_id" = Some u)
    (Hi : ObjectIDFromHex (Param c "id") = Some i)
    (Hb : bindUpdate (Request_body c) = inr req)
    (Hup : peek (link w) = true)
    (Hup3 : peek (link (afterRoundTrip (afterRoundTrip w))) = true)
    (Hup4 : peek (link (afterRoundTrip (afterRoundTrip (afterRoundTrip w))))
            = true)
    (Hmatch : Exists (fun t => ID t = i /\ UserID t = u) (todos w)) :
  exists l1 old l2,
    todos w = l1 ++ old :: l2 /\
    ID old = i /\ UserID old = u /\
    Forall (fun t => ID t <> i) (List.filter (fun x => String.eqb (UserID x) u) l1) /\
    Writer_response (GetTodos c2 (UpdateTodo c w).2).1 =
      Some (StatusOK,
            {["todos" :=
                V_Todos
                  (elements
                     (List.filter (fun x => String.eqb (UserID x) u) l1 ++
                      updated (peek (wall w)) req old ::
                      List.filter (fun x => String.eqb (UserID x) u) l2))]}).
Proof.
  assert (Exists (fun t => matches (ownedBy i u) t = true) (todos w)) as Hex.
  { eapply Exists_impl; [exact Hmatch|]. intros t. apply matches_ownedBy. }
  destruct (first_split _ _ Hex) as (l1 & old & l2 & Hl & Hl1 & Hold).
  apply matches_ownedBy in Hold as Hold'. destruct Hold' as [Hid Hown].
  exists l1, old, l2. split; [exact Hl|]. split; [exact Hid|].
  split; [exact Hown|]. split.
  { apply Forall_forall. intros t Ht Heq.
    apply list_elem_of_In in Ht. apply List.filter_In in Ht as [Hin Ho].
    apply String.eqb_eq in Ho. rewrite Forall_forall in Hl1.
    assert (matches (ownedBy i u) t = false) as Hno.
    { apply Hl1. apply list_elem_of_In. exact Hin. }
    apply matches_ownedBy_false in Hno. apply Hno. split; assumption. }
  assert ((UpdateTodo c w).2 =
          afterRoundTrip
            (stored (l1 ++ updated (peek (wall w)) req old :: l2)
               (afterRoundTrip (afterClock w)))) as ->.
  { rewrite (UpdateTodo_run c w u i req Hu Hi Hb), Hup, Hl.
    rewrite (updateFirst_split _ _ _ _ _ Hl1 Hold), applySet_updateFields.
    cbv zeta. cbn [fst snd Z.eqb].
    change (peek (link (stored _ (afterRoundTrip (afterClock w)))))
      with (peek (link (afterRoundTrip w))).
    destruct (peek (link (afterRoundTrip w))); reflexivity. }
  rewrite (GetTodos_run c2 _ u Hu2).
  change (peek (link (afterRoundTrip (stored _ _))))
    with (peek (link (afterRoundTrip (afterRoundTrip w)))).
  rewrite Hup3.
  change (peek (link (afterRoundTrip (afterRoundTrip (stored _ _)))))
    with (peek (link (afterRoundTrip (afterRoundTrip (afterRoundTrip w))))).
  rewrite Hup4. cbn [fst].
  rewrite response_JSON, todos_afterRoundTrip, todos_stored, filter_owner.
  rewrite othersOf_or_own. cbn [List.filter updated UserID].
  apply String.eqb_eq in Hown. rewrite Hown. reflexivity.
Qed.

Lemma updated_todo_is_listed_in_place_witness :
  let c := requestOf "alice" "000000000000000000000001"
             (Some (JObject [("completed", JBool true)])) in
  let c2 := requestOf "alice" "" None in
  let w := calmWorld [todoA] in
  Get c "user_id" = Some "alice" /\
  Get c2 "user_id" = Some "alice" /\
  ObjectIDFromHex (Param c "id") = Some 1%N /\
  bindUpdate (Request_body c) = inr (mkUpdateTodoRequest None None (Some true)) /\
  peek (link w) = true /\
  peek (link (afterRoundTrip (afterRoundTrip w))) = true /\
  peek (link (afterRoundTrip (afterRoundTrip (afterRoundTrip w)))) = true /\
  Exists (fun t => ID t = 1%N /\ UserID t = "alice") (todos w) /\
  status (GetTodos c2 (UpdateTodo c w).2).1 = Some StatusOK.
Proof.
  cbv zeta.
  assert (Exists (fun t => ID t = 1%N /\ UserID t = "alice")
            (todos (calmWorld [todoA]))) as Hex.
  { assert (todos (calmWorld [todoA]) = [todoA]) as ->
      by (vm_compute; reflexivity).
    left. split; reflexivity. }
  do 7 (split; [reflexivity|]). split; [exact Hex|].
  destruct (updated_todo_is_listed_in_place
              (requestOf "alice" "000000000000000000000001"
                 (Some (JObject [("completed", JBool true)])))
              (requestOf "alice" "" None) (calmWorld [todoA]) "alice" 1%N
              (mkUpdateTodoRequest None None (Some true))
              eq_refl eq_refl eq_refl eq_refl eq_refl eq_refl eq_refl Hex)
    as (l1 & old & l2 & _ & _ & _ & _ & Hr).
  exact (status_of_response _ _ _ Hr).
Defined.
